(** * Wikipedia research assistant: the resolution and extraction pipeline

    A shallow embedding of [summarizer.py], [filter.py], [scraper.py],
    [app.py] and [cli.py], followed by the properties of the pipeline.

    Conventions of the embedding:
    - a Python [str] is a list of Unicode code points ([N]);
    - a Python list is a [list]; a slice [xs[:n]] is [slice_to];
    - the network ([requests.get]) is an oracle that answers the n-th
      request of a run; the code runs in a state-and-exception monad whose
      state is the log of the requests issued so far;
    - a parsed document (a [BeautifulSoup] object) is a tree of elements
      and strings, each string with the class the parser gave it; CSS
      selection is a small selector engine over it. *)

From Stdlib Require Import List Bool NArith ZArith Lia String Ascii DecimalString.
From stdpp Require Import base list.
Import ListNotations.

Local Open Scope N_scope.

(** ** Python strings *)

Module PyStr.

Definition char := N.
Definition pystr := list char.

(** A literal of the source, written with ASCII characters only. *)
Definition py (s : string) : pystr :=
  List.map N_of_ascii (list_ascii_of_string s).

Definition char_eqb (a b : char) : bool := N.eqb a b.

Fixpoint str_eqb (a b : pystr) : bool :=
  match a, b with
  | [], [] => true
  | x :: a', y :: b' => char_eqb x y && str_eqb a' b'
  | _, _ => false
  end.

(** [str.isspace] on one character, which is also what [\s] matches in a
    [str] pattern and what [str.strip()] and [str.split()] remove:
    CPython's table of whitespace code points. *)
Definition isspace (c : char) : bool :=
  ((9 <=? c) && (c <=? 13)) || ((28 <=? c) && (c <=? 32))
  || (c =? 133) || (c =? 160) || (c =? 5760)
  || ((8192 <=? c) && (c <=? 8202))
  || (c =? 8232) || (c =? 8233) || (c =? 8239) || (c =? 8287)
  || (c =? 12288).

Definition SPACE : char := 32.
Definition UNDERSCORE : char := 95.
Definition COLON : char := 58.

(** [s.lstrip()], [s.rstrip()], [s.strip()] *)
Fixpoint lstrip (s : pystr) : pystr :=
  match s with
  | [] => []
  | c :: s' => if isspace c then lstrip s' else s
  end.

Fixpoint rstrip (s : pystr) : pystr :=
  match s with
  | [] => []
  | c :: s' =>
      match rstrip s' with
      | [] => if isspace c then [] else [c]
      | r => c :: r
      end
  end.

Definition strip (s : pystr) : pystr := rstrip (lstrip s).

(** [s.split()]: the maximal runs of non-whitespace characters.
    [word] is the run being read, [None] between two runs. *)
Fixpoint split_from (word : option pystr) (s : pystr) : list pystr :=
  match s with
  | [] => match word with Some w => [w] | None => [] end
  | c :: s' =>
      if isspace c
      then match word with
           | Some w => w :: split_from None s'
           | None => split_from None s'
           end
      else match word with
           | Some w => split_from (Some (w ++ [c])) s'
           | None => split_from (Some [c]) s'
           end
  end.

Definition split (s : pystr) : list pystr := split_from None s.

(** [sep.join(parts)] *)
Fixpoint join (sep : pystr) (parts : list pystr) : pystr :=
  match parts with
  | [] => []
  | [p] => p
  | p :: rest => p ++ sep ++ join sep rest
  end.

(** [s.replace(a, b)] for one-character [a] and [b] *)
Definition replace_char (a b : char) (s : pystr) : pystr :=
  List.map (fun c => if char_eqb c a then b else c) s.

(** [s.startswith(p)] *)
Fixpoint startswith (p s : pystr) : bool :=
  match p, s with
  | [], _ => true
  | x :: p', y :: s' => char_eqb x y && startswith p' s'
  | _ :: _, [] => false
  end.

(** [sub in s] *)
Fixpoint contains (sub s : pystr) : bool :=
  startswith sub s ||
  match s with
  | [] => false
  | _ :: s' => contains sub s'
  end.

(** [s.rsplit(sep, 1)[-1]] for a non-empty [sep]: what follows the last
    occurrence of [sep], the whole of [s] when there is none. *)
Fixpoint after_last (sep s : pystr) : option pystr :=
  match s with
  | [] => None
  | _ :: s' =>
      match after_last sep s' with
      | Some r => Some r
      | None =>
          if startswith sep s then Some (skipn (length sep) s) else None
      end
  end.

Definition rsplit1_last (sep s : pystr) : pystr :=
  match after_last sep s with
  | Some r => r
  | None => s
  end.

(** The truth value of a string or of a list: it is not empty. *)
Definition truthy {A} (xs : list A) : bool :=
  match xs with
  | [] => false
  | _ :: _ => true
  end.

(** [xs[:n]] for a Python integer [n] *)
Definition slice_to {A} (n : Z) (xs : list A) : list A :=
  if (0 <=? n)%Z then firstn (Z.to_nat n) xs
  else firstn (Z.to_nat (Z.of_nat (length xs) + n)) xs.

(** [str(n)] for a non-negative integer, [f"{n}"] *)
Definition str_of_N (n : N) : pystr :=
  py (NilEmpty.string_of_uint (N.to_uint n)).

Definition str_of_Z (z : Z) : pystr :=
  if (z <? 0)%Z then py "-" ++ str_of_N (Z.to_N (- z))
  else str_of_N (Z.to_N z).

End PyStr.

(** ** summarizer.py *)

Module Summarizer.
Import PyStr.

(** [re.sub(r"\s+", " ", text)]: every maximal run of whitespace becomes
    one space. [in_run] holds when the previous character was whitespace,
    that is, when the replacement for the current run is already out. *)
Fixpoint sub_ws_runs (in_run : bool) (text : pystr) : pystr :=
  match text with
  | [] => []
  | c :: rest =>
      if isspace c
      then if in_run then sub_ws_runs true rest
           else SPACE :: sub_ws_runs true rest
      else c :: sub_ws_runs false rest
  end.

(** The class [[.,!?;:]] *)
Definition ispunct (c : char) : bool :=
  (c =? 46) || (c =? 44) || (c =? 33) || (c =? 63) || (c =? 59) || (c =? 58).

(** [re.sub(r"\s+([.,!?;:])", r"\1", s)]: a maximal run of whitespace
    that is followed by a punctuation mark is removed, the mark stays.
    A match can only start at the first character of a maximal run (the
    scan restarts after the mark of the previous match), and only the
    whole run can be followed by a mark. [run] is the whitespace read
    since the last other character; it is written out when the next
    character is not a mark. *)
Fixpoint sub_ws_before_punct (run : pystr) (s : pystr) : pystr :=
  match s with
  | [] => run
  | c :: rest =>
      if isspace c then sub_ws_before_punct (run ++ [c]) rest
      else if ispunct c then c :: sub_ws_before_punct [] rest
      else run ++ c :: sub_ws_before_punct [] rest
  end.

Definition clean_text (text : pystr) : pystr :=
  let s := strip (sub_ws_runs false text) in
  let s := sub_ws_before_punct [] s in
  s.

(** The class [[.!?]] of the look-behind of [summarize]. *)
Definition is_sentence_end (c : char) : bool :=
  (c =? 46) || (c =? 33) || (c =? 63).

(** [re.split(r"(?<=[.!?])\s+", s)]: the text is cut at every maximal run
    of whitespace that directly follows one of [. ! ?]; the runs are
    dropped. A match cannot start inside a run, whose characters follow
    whitespace. [piece] is the piece being read, [after_end] holds when
    the previous character is one of the three marks, [in_gap] while a
    separating run is being skipped. *)
Fixpoint split_sentences (piece : pystr) (after_end in_gap : bool)
  (s : pystr) : list pystr :=
  match s with
  | [] => [piece]
  | c :: rest =>
      if isspace c && (in_gap || after_end)
      then if in_gap then split_sentences piece false true rest
           else piece :: split_sentences [] false true rest
      else split_sentences (piece ++ [c]) (is_sentence_end c) false rest
  end.

(** [summarize(text, max_sentences)]; [max_sentences] is any Python
    integer, 2 when the argument is left out. *)
Definition summarize (text : pystr) (max_sentences : Z) : pystr :=
  let cleaned := clean_text text in
  let sentences := split_sentences [] false false cleaned in
  join (py " ") (slice_to max_sentences sentences).

End Summarizer.

(** ** filter.py *)

Module Filter.
Import PyStr.

(** An article dictionary. A key the dictionary does not have is [None];
    [item.get(key, default)] is [get_or]. *)
Record item := {
  title : option pystr;
  url : option pystr;
  excerpt : option pystr;
  categories : option (list pystr)
}.

Definition get_or {A} (field : option A) (default : A) : A :=
  match field with
  | Some v => v
  | None => default
  end.

Section WithLower.
(** [str.lower], the case mapping of the Python runtime. *)
Variable lower : pystr -> pystr.

(** The text blob of [matches]. *)
Definition text_blob (it : item) : pystr :=
  lower (join (py " ")
           [ get_or (title it) [];
             get_or (excerpt it) [];
             join (py " ") (get_or (categories it) []) ]).

(** The closure [matches] of [filter_by_keyword]. *)
Definition matches (keywords : list pystr) (mode : pystr) (it : item)
  : bool :=
  if str_eqb mode (py "and")
  then forallb (fun kw => contains (lower kw) (text_blob it)) keywords
  else existsb (fun kw => contains (lower kw) (text_blob it)) keywords.

Definition filter_by_keyword
  (items : list item) (keywords : list pystr) (mode : pystr)
  : list item :=
  List.filter (matches keywords mode) items.

(** [filter_by_keyword(items, keywords)], with [mode] left at ["or"]. *)
Definition filter_by_keyword_default
  (items : list item) (keywords : list pystr) : list item :=
  filter_by_keyword items keywords (py "or").
End WithLower.

End Filter.

(** ** Parsed documents and CSS selection *)

Module Soup.
Import PyStr.

Record element := {
  name : pystr;
  attrs : list (pystr * pystr)
}.

(** The classes of the strings of a parsed document. Text is a
    [NavigableString], a [<!-- -->] is a [Comment], and so on; the
    parser gives the text inside [<style>], [<script>], [<template>],
    [<rt>] and [<rp>] (the innermost of them around it) a class of its
    own. *)
Inductive string_class :=
| NavigableString
| CData
| Comment
| Declaration
| Doctype
| ProcessingInstruction
| Stylesheet
| Script
| TemplateString
| RubyTextString
| RubyParenthesisString.

#[local] Unset Elimination Schemes.
Inductive node :=
| Text (cls : string_class) (s : pystr)
| Node (e : element) (children : list node).
#[local] Set Elimination Schemes.

(** The document object: the list of its top-level nodes. *)
Definition soup := list node.

(** An element met while walking a document: its ancestors (the parent
    first), itself and its children. *)
Record tag := {
  parents : list element;
  elem : element;
  contents : list node
}.

(** [e[key]] when the attribute is there *)
Fixpoint attr_lookup (key : pystr) (l : list (pystr * pystr))
  : option pystr :=
  match l with
  | [] => None
  | (k, v) :: l' => if str_eqb k key then Some v else attr_lookup key l'
  end.

Definition attr (key : pystr) (e : element) : option pystr :=
  attr_lookup key (attrs e).

(** A compound selector: [name], [.class], [#id] and [[attr^='prefix']],
    each optional. *)
Record compound := {
  sel_name : option pystr;
  sel_class : option pystr;
  sel_id : option pystr;
  sel_attr_prefix : option (pystr * pystr)
}.

Inductive combinator := Descendant | Child.

(** A complex selector, read from its subject (the rightmost compound)
    leftwards. *)
Record selector := {
  subject : compound;
  context : list (combinator * compound)
}.

Definition opt_test {A} (o : option A) (test : A -> bool) : bool :=
  match o with
  | Some a => test a
  | None => true
  end.

Definition has_class (c : pystr) (e : element) : bool :=
  match attr (py "class") e with
  | Some v => existsb (str_eqb c) (split v)
  | None => false
  end.

Definition has_id (i : pystr) (e : element) : bool :=
  match attr (py "id") e with
  | Some v => str_eqb v i
  | None => false
  end.

Definition has_attr_prefix (kp : pystr * pystr) (e : element) : bool :=
  match attr (fst kp) e with
  | Some v => startswith (snd kp) v
  | None => false
  end.

Definition matches_compound (c : compound) (e : element) : bool :=
  opt_test (sel_name c) (fun n => str_eqb (name e) n)
  && opt_test (sel_class c) (fun k => has_class k e)
  && opt_test (sel_id c) (fun i => has_id i e)
  && opt_test (sel_attr_prefix c) (fun kp => has_attr_prefix kp e).

(** Does the chain of ancestors satisfy the rest of the selector? *)
Fixpoint matches_context (ctx : list (combinator * compound))
  (ancestors : list element) : bool :=
  match ctx with
  | [] => true
  | (Child, c) :: ctx' =>
      match ancestors with
      | [] => false
      | p :: up => matches_compound c p && matches_context ctx' up
      end
  | (Descendant, c) :: ctx' =>
      (fix search (l : list element) : bool :=
         match l with
         | [] => false
         | p :: up =>
             (matches_compound c p && matches_context ctx' up) || search up
         end) ancestors
  end.

Definition matches_selector (sel : selector) (t : tag) : bool :=
  matches_compound (subject sel) (elem t)
  && matches_context (context sel) (parents t).

(** All elements below a node, in document order. *)
Fixpoint tags_of (ancestors : list element) (n : node) : list tag :=
  match n with
  | Text _ _ => []
  | Node e ch =>
      {| parents := ancestors; elem := e; contents := ch |}
        :: flat_map (tags_of (e :: ancestors)) ch
  end.

Definition soup_descendants (s : soup) : list tag :=
  flat_map (tags_of []) s.

Definition tag_descendants (t : tag) : list tag :=
  flat_map (tags_of (elem t :: parents t)) (contents t).

(** [soup.select(sel)], [soup.select_one(sel)], [tag.select(sel)] *)
Definition select (sel : selector) (s : soup) : list tag :=
  List.filter (matches_selector sel) (soup_descendants s).

Definition select_one (sel : selector) (s : soup) : option tag :=
  List.head (select sel s).

Definition tag_select (sel : selector) (t : tag) : list tag :=
  List.filter (matches_selector sel) (tag_descendants t).

(** The strings below a node, each with its class, in document order. *)
Fixpoint strings (n : node) : list (string_class * pystr) :=
  match n with
  | Text cls s => [(cls, s)]
  | Node _ ch => flat_map strings ch
  end.

Definition string_class_eqb (a b : string_class) : bool :=
  match a, b with
  | NavigableString, NavigableString | CData, CData | Comment, Comment
  | Declaration, Declaration | Doctype, Doctype
  | ProcessingInstruction, ProcessingInstruction
  | Stylesheet, Stylesheet | Script, Script
  | TemplateString, TemplateString | RubyTextString, RubyTextString
  | RubyParenthesisString, RubyParenthesisString => true
  | _, _ => false
  end.

(** The string containers of the HTML tree builder: the tags whose text
    has a class of its own. *)
Definition string_container (tag_name : pystr) : option string_class :=
  if str_eqb tag_name (py "rt") then Some RubyTextString
  else if str_eqb tag_name (py "rp") then Some RubyParenthesisString
  else if str_eqb tag_name (py "style") then Some Stylesheet
  else if str_eqb tag_name (py "script") then Some Script
  else if str_eqb tag_name (py "template") then Some TemplateString
  else None.

(** [tag.interesting_string_types]: the strings that [get_text] reads
    below a tag. Below a string container they are the strings of the
    container's class, below any other tag the [NavigableString]s and
    the [CData] sections; the test is on the exact class, so comments,
    style sheets, scripts and the like inside a paragraph are left out. *)
Definition interesting (e : element) (cls : string_class) : bool :=
  match string_container (name e) with
  | Some container => string_class_eqb cls container
  | None =>
      string_class_eqb cls NavigableString || string_class_eqb cls CData
  end.

(** [tag.get_text(sep, strip=True)]: the interesting strings below the
    tag, each stripped, the empty ones left out, joined by [sep]. *)
Definition get_text_strip (sep : pystr) (t : tag) : pystr :=
  join sep
    (List.filter truthy
       (List.map strip
          (List.map snd
             (List.filter (fun cs => interesting (elem t) (fst cs))
                (flat_map strings (contents t)))))).

Definition just_name (n : pystr) : compound :=
  {| sel_name := Some n; sel_class := None; sel_id := None;
     sel_attr_prefix := None |}.

End Soup.

(** ** scraper.py *)

Module Scraper.
Import PyStr Soup.

Definition API_URL : pystr := py "https://en.wikipedia.org/w/api.php".

Definition build_wiki_url (topic : pystr) : pystr :=
  py "https://en.wikipedia.org/wiki/" ++ topic.

(** *** Exceptions, the network and the monad of the code *)

Inductive exn :=
| Exception (msg : pystr)
    (** [raise Exception(msg)] *)
| RequestException (msg : pystr)
    (** raised inside [requests.get] or [resp.json()]: a transport error
        or a body that is not a search result *)
| HTTPError (status_code : Z)
    (** raised by [resp.raise_for_status()] *).

Inductive outcome (A : Type) :=
| Returns (a : A)
| Raises (e : exn).
Arguments Returns {A} a.
Arguments Raises {A} e.

(** A request as it leaves the process: a page address, or the search
    API with its [srsearch] parameter. *)
Inductive request :=
| GetPage (url : pystr)
| GetSearch (api : pystr) (srsearch : pystr).

(** The response to a page request; [parsed] is
    [BeautifulSoup(resp.text, "html.parser")]. *)
Record page_response := {
  status_code : Z;
  parsed : soup
}.

(** The response to a search request; [hit_titles] are the titles of
    [resp.json().get("query", {}).get("search", [])], in order. *)
Record search_response := {
  search_status_code : Z;
  hit_titles : list pystr
}.

(** The network: what the n-th request of a run is answered with. *)
Record world := {
  fetch : nat -> pystr -> outcome page_response;
  search : nat -> pystr -> outcome search_response
}.

(** State: the requests issued so far, oldest first. *)
Definition M (A : Type) : Type :=
  list request -> outcome A * list request.

Definition ret {A} (a : A) : M A := fun log => (Returns a, log).

Definition raise {A} (e : exn) : M A := fun log => (Raises e, log).

Definition bind {A B} (m : M A) (k : A -> M B) : M B :=
  fun log =>
    match m log with
    | (Returns a, log') => k a log'
    | (Raises e, log') => (Raises e, log')
    end.

(** [try: a = m; (rest: k a)  except Exception as e: h e], where the
    [try] block holds [m] only. *)
Definition try_except {A B} (m : M A) (k : A -> M B) (h : exn -> M B)
  : M B :=
  fun log =>
    match m log with
    | (Returns a, log') => k a log'
    | (Raises e, log') => h e log'
    end.

Notation "x <- m ;; k" := (bind m (fun x => k))
  (at level 100, m at next level, right associativity).

Section WithWorld.
Variable w : world.

(** [requests.get(url)] *)
Definition requests_get (url : pystr) : M page_response :=
  fun log => (fetch w (length log) url, log ++ [GetPage url]).

(** [requests.get(API_URL, params=params)] with [srsearch] set to
    [term], the other parameters being constants *)
Definition requests_get_search (term : pystr) : M search_response :=
  fun log => (search w (length log) term, log ++ [GetSearch API_URL term]).

(** [resp.raise_for_status()] *)
Definition raise_for_status (resp : search_response) : M unit :=
  if ((400 <=? search_status_code resp)
      && (search_status_code resp <? 600))%Z
  then raise (HTTPError (search_status_code resp))
  else ret tt.

Definition search_wikipedia (term : pystr) : M (option pystr) :=
  resp <- requests_get_search term ;;
  _ <- raise_for_status resp ;;
  let hits := hit_titles resp in
  match hits with
  | [] => ret None
  | first :: _ => ret (Some first)
  end.

(** The messages of the two exceptions of [get_soup_for_topic]. *)
Definition no_page_found (topic : pystr) : pystr :=
  py "Womp womp! No page found for '" ++ topic ++ py "'.".

Definition tried_but_got (matched : pystr) (status : Z) : pystr :=
  py "Womp womp! Tried '" ++ matched ++ py "' but got status "
  ++ str_of_Z status ++ py ".".

Definition get_soup_for_topic (topic : pystr) : M (soup * pystr) :=
  let sanitized := replace_char SPACE UNDERSCORE topic in
  let url := build_wiki_url sanitized in
  resp <- requests_get url ;;
  if (status_code resp =? 200)%Z then ret (parsed resp, sanitized)
  else
    let search_term := replace_char UNDERSCORE SPACE topic in
    matched <- search_wikipedia search_term ;;
    match matched with
    | None | Some [] =>
        (* [not match]: [None], or the empty string *)
        raise (Exception (no_page_found topic))
    | Some matched =>
        let sanitized := replace_char SPACE UNDERSCORE matched in
        let url := build_wiki_url sanitized in
        resp <- requests_get url ;;
        if negb (status_code resp =? 200)%Z
        then raise (Exception (tried_but_got matched (status_code resp)))
        else ret (parsed resp, sanitized)
    end.
End WithWorld.

(** *** Extraction from a parsed document *)

(** ["div.mw-parser-output a[href^='/wiki/']"] *)
Definition content_wiki_anchors : selector :=
  {| subject :=
       {| sel_name := Some (py "a"); sel_class := None; sel_id := None;
          sel_attr_prefix := Some (py "href", py "/wiki/") |};
     context :=
       [ (Descendant,
          {| sel_name := Some (py "div");
             sel_class := Some (py "mw-parser-output");
             sel_id := None; sel_attr_prefix := None |}) ] |}.

(** ["div.mw-parser-output > p"] *)
Definition content_paragraphs : selector :=
  {| subject := just_name (py "p");
     context :=
       [ (Child,
          {| sel_name := Some (py "div");
             sel_class := Some (py "mw-parser-output");
             sel_id := None; sel_attr_prefix := None |}) ] |}.

(** ["#mw-normal-catlinks ul"] *)
Definition catlinks_list : selector :=
  {| subject := just_name (py "ul");
     context :=
       [ (Descendant,
          {| sel_name := None; sel_class := None;
             sel_id := Some (py "mw-normal-catlinks");
             sel_attr_prefix := None |}) ] |}.

(** ["li"] *)
Definition list_items : selector :=
  {| subject := just_name (py "li"); context := [] |}.

(** [a["href"]]; the selector of [find_internal_links] only matches
    elements that have the attribute. *)
Definition href_of (a : tag) : pystr :=
  match attr (py "href") (elem a) with
  | Some v => v
  | None => []
  end.

Definition WIKIPEDIA : pystr := py "https://en.wikipedia.org".

Definition find_internal_links (s : soup) : list pystr :=
  let anchors := select content_wiki_anchors s in
  fold_left
    (fun internal a =>
       let href := href_of a in
       if negb (contains (py ":") href)
       then internal ++ [WIKIPEDIA ++ href]
       else internal)
    anchors [].

(** The loop of [get_first_paragraph], which returns at the first
    paragraph that is long enough. *)
Fixpoint first_substantial (paragraphs : list tag) : pystr :=
  match paragraphs with
  | [] => []
  | p :: rest =>
      let text := get_text_strip (py " ") p in
      if truthy text && (15 <? length (split text))%nat
      then text
      else first_substantial rest
  end.

Definition get_first_paragraph (s : soup) : pystr :=
  first_substantial (select content_paragraphs s).

Definition get_categories (s : soup) : list pystr :=
  match select_one catlinks_list s with
  | None => []
  | Some container =>
      List.map (get_text_strip (py " ")) (tag_select list_items container)
  end.

End Scraper.

(** ** app.py *)

Module App.
Import PyStr Soup Filter Scraper Summarizer.

(** The submitted form: [request.form["topic"]],
    [request.form.get("mode", "links")],
    [int(request.form.get("limit", 5))] and
    [request.form.get("keywords", "")]. *)
Record form := {
  form_topic : pystr;
  form_mode : pystr;
  form_limit : Z;
  form_keywords : pystr
}.

(** What [index] hands to [render_template]. The [error] of
    ["index.html"] is [str(e)], the text of the exception held here. *)
Inductive rendered :=
| index_html (error : exn)
| results_html (original : pystr) (main : item) (related : list item)
    (mode : pystr) (keywords : list pystr) (limit : Z).

(** [mode in ("summaries", "filtered")] *)
Definition wants_summaries (mode : pystr) : bool :=
  str_eqb mode (py "summaries") || str_eqb mode (py "filtered").

Section WithRuntime.
Variable lower : pystr -> pystr.
Variable w : world.

(** The dictionary of one related page, steps "build" and "populate". *)
Definition related_item (mode subtopic url : pystr) (page_soup : soup)
  : item :=
  let it :=
    {| title := Some (replace_char UNDERSCORE SPACE subtopic);
       url := Some url;
       excerpt := Some [];
       categories := Some [] |} in
  if wants_summaries mode
  then {| title := title it;
          url := Filter.url it;
          excerpt := Some (clean_text (get_first_paragraph page_soup));
          categories := Some (get_categories page_soup) |}
  else it.

(** [for url in all_links: ...], with [related] as it stands when the
    loop reaches the links that are left. *)
Fixpoint related_loop (mode : pystr) (related : list item)
  (all_links : list pystr) : M (list item) :=
  match all_links with
  | [] => ret related
  | url :: rest =>
      let subtopic := rsplit1_last (py "/wiki/") url in
      try_except (get_soup_for_topic w subtopic)
        (fun r =>
           let page_soup := fst r in
           let it := related_item mode subtopic url page_soup in
           related_loop mode (related ++ [it]) rest)
        (fun _ => (* continue *) related_loop mode related rest)
  end.

Definition main_article_of (mode actual_topic : pystr) (main_soup : soup)
  : item :=
  let main_article :=
    {| title := Some (replace_char UNDERSCORE SPACE actual_topic);
       url := Some (py "https://en.wikipedia.org/wiki/" ++ actual_topic);
       excerpt := Some [];
       categories := Some [] |} in
  if wants_summaries mode
  then {| title := title main_article;
          url := Filter.url main_article;
          excerpt := Some (clean_text (get_first_paragraph main_soup));
          categories := Some (get_categories main_soup) |}
  else main_article.

(** The [POST] branch of [index]. *)
Definition index (f : form) : M rendered :=
  let raw_topic := form_topic f in
  let mode := form_mode f in
  let limit := form_limit f in
  let keywords := split (form_keywords f) in
  try_except (get_soup_for_topic w raw_topic)
    (fun r =>
       let main_soup := fst r in
       let actual_topic := snd r in
       let main_article := main_article_of mode actual_topic main_soup in
       let all_links := slice_to limit (find_internal_links main_soup) in
       related <- related_loop mode [] all_links ;;
       let related :=
         if str_eqb mode (py "filtered") && truthy keywords
         then filter_by_keyword_default lower related keywords
         else related in
       ret (results_html (replace_char UNDERSCORE SPACE raw_topic)
              main_article related mode keywords limit))
    (fun e => ret (index_html e)).
End WithRuntime.
End App.

(** ** cli.py *)

Module Cli.
Import PyStr Soup Filter Scraper Summarizer.

(** The parsed arguments; [argparse] restricts [mode] to ["links"],
    ["summaries"] and ["filtered"], and [output] to ["console"],
    ["text"] and ["json"]. *)
Record args := {
  topic : pystr;
  mode : pystr;
  limit : Z;
  keywords : list pystr;
  output : pystr
}.

(** What [main] does at its end: it prints the error of the main lookup
    and returns, or it sends [results] to the destination [output]
    (the console, or a file named after [actual_topic]). *)
Inductive finished :=
| printed_error (e : exn)
| sent (output : pystr) (actual_topic : pystr) (results : list item).

Definition wants_summaries (mode : pystr) : bool :=
  str_eqb mode (py "summaries") || str_eqb mode (py "filtered").

Section WithRuntime.
Variable lower : pystr -> pystr.
Variable w : world.

Definition result_item (mode subtopic url : pystr) (page_soup : soup)
  : item :=
  let title := subtopic in
  let excerpt :=
    if wants_summaries mode
    then clean_text (get_first_paragraph page_soup)
    else [] in
  let categories := get_categories page_soup in
  {| Filter.title := Some title;
     Filter.url := Some url;
     Filter.excerpt := Some excerpt;
     Filter.categories := Some categories |}.

Fixpoint results_loop (mode : pystr) (results : list item)
  (links : list pystr) : M (list item) :=
  match links with
  | [] => ret results
  | url :: rest =>
      let subtopic := rsplit1_last (py "/wiki/") url in
      try_except (get_soup_for_topic w subtopic)
        (fun r =>
           let page_soup := fst r in
           let it := result_item mode subtopic url page_soup in
           results_loop mode (results ++ [it]) rest)
        (fun _ => (* continue *) results_loop mode results rest)
  end.

Definition main (a : args) : M finished :=
  try_except (get_soup_for_topic w (topic a))
    (fun r =>
       let soup := fst r in
       let actual_topic := snd r in
       let links := slice_to (limit a) (find_internal_links soup) in
       results <- results_loop (mode a) [] links ;;
       let results :=
         if str_eqb (mode a) (py "filtered") && truthy (keywords a)
         then filter_by_keyword_default lower results (keywords a)
         else results in
       ret (sent (output a) actual_topic results))
    (fun e => ret (printed_error e)).
End WithRuntime.
End Cli.

(** ** The shape of cleaned text *)

Module CleanShape.
Import PyStr Summarizer.

(** Where a scan stands: before the first character, after a character
    that is not whitespace, after a single space. *)
Inductive pos := AtStart | AfterChar | AfterSpace.

Definition after_space (p : pos) : bool :=
  match p with AfterSpace => true | _ => false end.

Definition after_char (p : pos) : bool :=
  match p with AfterChar => true | _ => false end.

(** [shaped punct trailing p s]: read from position [p], the only
    whitespace of [s] is single spaces between two other characters;
    with [trailing], [s] may end in one of them; with [punct], none of
    them stands before a punctuation mark. *)
Fixpoint shaped (punct trailing : bool) (p : pos) (s : pystr) : bool :=
  match s with
  | [] => trailing || negb (after_space p)
  | c :: rest =>
      if isspace c
      then (c =? SPACE) && after_char p
           && shaped punct trailing AfterSpace rest
      else negb (punct && after_space p && ispunct c)
           && shaped punct trailing AfterChar rest
  end.

(** The output shape of [clean_text]. *)
Definition neat (s : pystr) : bool := shaped true false AtStart s.

(** Is there a pair of neighbours [a], [b] of [s] with [bad a b]? *)
Fixpoint adjacent (bad : char -> char -> bool) (s : pystr) : bool :=
  match s with
  | [] => false
  | a :: rest =>
      match rest with
      | [] => false
      | b :: _ => bad a b || adjacent bad rest
      end
  end.

(** The characters of a text that are not whitespace, in order. *)
Definition visible (s : pystr) : pystr :=
  List.filter (fun c => negb (isspace c)) s.

(** A space followed by a space or by one of [. , ! ? ; :] *)
Definition space_then_space_or_mark (a b : char) : bool :=
  (a =? SPACE) && ((b =? SPACE) || ispunct b).

End CleanShape.

(** ** The link extraction of the specification *)

Module LinkSpec.
Import PyStr Soup Scraper.

(** The main content container: a [div] of class [mw-parser-output]. *)
Definition is_content_container (e : element) : bool :=
  str_eqb (name e) (py "div") && has_class (py "mw-parser-output") e.

(** The target of an anchor when it begins with the article-namespace
    prefix and has no colon. *)
Definition qualifying_target (e : element) : option pystr :=
  match attr (py "href") e with
  | Some target =>
      if startswith (py "/wiki/") target && negb (contains (py ":") target)
      then Some target
      else None
  | None => None
  end.

(** The absolute URLs of the qualifying anchors at and below a node, in
    document order, one for each anchor; [inside] holds when the node
    lies in a content container. *)
Fixpoint links_below (inside : bool) (n : node) : list pystr :=
  match n with
  | Text _ _ => []
  | Node e ch =>
      (if inside && str_eqb (name e) (py "a")
       then match qualifying_target e with
            | Some target => [py "https://en.wikipedia.org" ++ target]
            | None => []
            end
       else [])
      ++ flat_map (links_below (inside || is_content_container e)) ch
  end.

(** What [find_internal_links] takes from one element of the walk:
    the selector's test and the test of the loop. *)
Definition link_of (t : tag) : list pystr :=
  if matches_selector content_wiki_anchors t
     && negb (contains (py ":") (href_of t))
  then [WIKIPEDIA ++ href_of t]
  else [].

(** [extractInternalLinks] as the specification words it. *)
Definition extractInternalLinks (doc : soup) : list pystr :=
  flat_map (links_below false) doc.

End LinkSpec.

(** ** The loop over the related links *)

Module RelatedLinks.
Import PyStr Soup Filter Scraper.

Section WithWorld.
Variable w : world.

(** The loop that [app.py] and [cli.py] both have, up to the
    dictionary [build subtopic url page_soup] made for a page that
    loaded. *)
Fixpoint collect (build : pystr -> pystr -> soup -> item)
  (acc : list item) (links : list pystr) : M (list item) :=
  match links with
  | [] => ret acc
  | url :: rest =>
      let subtopic := rsplit1_last (py "/wiki/") url in
      try_except (get_soup_for_topic w subtopic)
        (fun r => collect build (acc ++ [build subtopic url (fst r)]) rest)
        (fun _ => collect build acc rest)
  end.

(** Does the lookup of each of [links] succeed, when they are looked
    up one after the other from the state [log]? *)
Fixpoint all_resolve (links : list pystr) (log : list request) : bool :=
  match links with
  | [] => true
  | url :: rest =>
      match get_soup_for_topic w (rsplit1_last (py "/wiki/") url) log with
      | (Returns _, log') => all_resolve rest log'
      | (Raises _, _) => false
      end
  end.
End WithWorld.

(** Step "apply keyword filtering" of both pipelines:
    [if mode == "filtered" and keywords:
       related = filter_by_keyword(related, keywords)]. *)
Definition filter_step (lower : pystr -> pystr) (mode : pystr)
  (keywords : list pystr) (related : list item) : list item :=
  if str_eqb mode (py "filtered") && truthy keywords
  then filter_by_keyword_default lower related keywords
  else related.

End RelatedLinks.

(** ** Concrete inputs *)

Module Examples.
Import PyStr Soup Filter Scraper.

(** [str.lower] on text whose letters are ASCII. *)
Definition ascii_lower (s : pystr) : pystr :=
  List.map (fun c => if (65 <=? c) && (c <=? 90) then c + 32 else c) s.

Definition climate_change : item :=
  {| title := Some (py "Climate_Change");
     url := Some (py "https://en.wikipedia.org/wiki/Climate_Change");
     excerpt := Some (py "Climate change refers to long-term shifts.");
     categories := Some [py "Science"; py "Environment"] |}.

Definition political_science : item :=
  {| title := Some (py "Political_Science");
     url := Some (py "https://en.wikipedia.org/wiki/Political_Science");
     excerpt := Some (py "Political science is the study of politics.");
     categories := Some [py "Politics"; py "Academia"] |}.

Local Open Scope string_scope.

Definition el (tag_name : string) (attributes : list (string * string))
  (children : list node) : node :=
  Node {| name := py tag_name;
          attrs := List.map (fun kv => (py (fst kv), py (snd kv)))
                     attributes |}
       children.

Definition txt (s : string) : node := Text NavigableString (py s).

(** An article page: a link outside the content, links, a file link, a
    repeated link and an external link inside it, and two categories. *)
Definition dog_page : soup :=
  [ el "html" []
      [ el "body" []
          [ el "a" [("href", "/wiki/Main_Page")] [txt "Main page"];
            el "div" [("class", "mw-content-ltr mw-parser-output")]
              [ el "p" [] [txt "Short note."];
                el "p" []
                  [ txt "The dog is a ";
                    el "a" [("href", "/wiki/Domestication")]
                      [txt "domesticated"];
                    txt " descendant of the wolf , kept by people in every part of the world for many thousands of years ." ];
                el "a" [("href", "/wiki/File:Dog.jpg")] [txt "photo"];
                el "p" []
                  [ el "a" [("href", "/wiki/Cat")] [txt "cats"];
                    el "a" [("href", "/wiki/Domestication")] [txt "again"] ];
                el "a" [("href", "https://example.org/")] [txt "site"] ];
            el "div" [("id", "mw-normal-catlinks")]
              [ el "ul" []
                  [ el "li" [] [el "a" [] [txt " Dogs "]];
                    el "li" [] [txt "Pets"] ] ] ] ] ].

(** A page without links. *)
Definition cat_page : soup :=
  [ el "div" [("class", "mw-parser-output")]
      [ el "p" [] [txt "The cat is a small animal."] ];
    el "div" [("id", "mw-normal-catlinks")]
      [ el "ul" [] [el "li" [] [txt "Cats"]] ] ].

(** A page whose first paragraph has fourteen words after a style sheet
    and a comment, and whose second paragraph has sixteen words. *)
Definition styled_page : soup :=
  [ el "div" [("class", "mw-parser-output")]
      [ el "p" []
          [ el "style" [] [Text Stylesheet (py ".a { color : red }")];
            Text Comment (py " a note of the editors ");
            txt "w0 w1 w2 w3 w4 w5 w6 w7 w8 w9 w10 w11 w12 w13" ];
        el "p" []
          [ txt "v0 v1 v2 v3 v4 v5 v6 v7 v8 v9 v10 v11 v12 v13 v14 v15" ] ] ].

Definition ok (page : soup) : outcome page_response :=
  Returns {| status_code := 200; parsed := page |}.

Definition status (code : Z) : outcome page_response :=
  Returns {| status_code := code; parsed := [] |}.

Definition hits (titles : list string) : outcome search_response :=
  Returns {| search_status_code := 200;
             hit_titles := List.map py titles |}.


(** Every page is served: the article on dogs at its address, the page
    without links at every other address. *)
Definition all_served : world :=
  {| fetch := fun _ url =>
       if str_eqb url (py "https://en.wikipedia.org/wiki/Dog")
       then ok dog_page else ok cat_page;
     search := fun _ _ => hits [] |}.

(** Only the article on dogs is served; other addresses are not found
    and the search finds nothing. *)
Definition dead_links : world :=
  {| fetch := fun _ url =>
       if str_eqb url (py "https://en.wikipedia.org/wiki/Dog")
       then ok dog_page else status 404;
     search := fun _ _ => hits [] |}.



(** A misspelt topic: not found directly, corrected by the search, and
    the corrected page answers with status [on_retry]. *)
Definition misspelt (on_retry : outcome page_response) : world :=
  {| fetch := fun _ url =>
       if str_eqb url (py "https://en.wikipedia.org/wiki/Dog")
       then on_retry else status 404;
     search := fun _ term =>
       if str_eqb term (py "doog") then hits ["Dog"] else hits [] |}.

Definition dog_form (mode : string) (limit : Z) (keywords : string)
  : App.form :=
  {| App.form_topic := py "Dog"; App.form_mode := py mode;
     App.form_limit := limit; App.form_keywords := py keywords |}.

Definition dog_args (mode : string) (limit : Z) (keywords : list string)
  : Cli.args :=
  {| Cli.topic := py "Dog"; Cli.mode := py mode; Cli.limit := limit;
     Cli.keywords := List.map py keywords; Cli.output := py "console" |}.

End Examples.

(** * Properties *)

(** ** Text normalisation *)

Section CleanText.
Import PyStr Summarizer CleanShape.

Lemma space_isspace : isspace SPACE = true.
Proof. reflexivity. Qed.

Lemma ispunct_not_space c : ispunct c = true -> isspace c = false.
Proof.
  unfold ispunct. rewrite !orb_true_iff, !N.eqb_eq.
  intros H. decompose [or] H; subst; reflexivity.
Qed.

Lemma shaped_cons punct trailing p c rest :
  shaped punct trailing p (c :: rest) = true ->
  (isspace c = true /\ c = SPACE /\ p = AfterChar
   /\ shaped punct trailing AfterSpace rest = true)
  \/ (isspace c = false
      /\ (punct && after_space p && ispunct c = false)
      /\ shaped punct trailing AfterChar rest = true).
Proof.
  simpl. destruct (isspace c) eqn:Hc.
  - rewrite !andb_true_iff, N.eqb_eq. intros [[-> Hp] Hr].
    left. destruct p; try discriminate. auto.
  - rewrite andb_true_iff, negb_true_iff. intros [Hq Hr]. right. auto.
Qed.

Lemma shaped_space punct trailing p rest :
  shaped punct trailing p (SPACE :: rest)
  = after_char p && shaped punct trailing AfterSpace rest.
Proof. reflexivity. Qed.

Lemma shaped_char punct trailing p c rest :
  isspace c = false ->
  shaped punct trailing p (c :: rest)
  = negb (punct && after_space p && ispunct c)
    && shaped punct trailing AfterChar rest.
Proof. intros Hc. simpl. now rewrite Hc. Qed.

(** Step 1: the runs of whitespace are single spaces. *)
Lemma sub_ws_runs_shaped (in_run : bool) (text : pystr) :
  shaped false true (if in_run then AfterSpace else AfterChar)
    (sub_ws_runs in_run text) = true.
Proof.
  revert in_run. induction text as [|c rest IH]; intros in_run.
  - reflexivity.
  - simpl sub_ws_runs. destruct (isspace c) eqn:Hc.
    + destruct in_run.
      * apply (IH true).
      * rewrite shaped_space. apply (IH true).
    + rewrite (shaped_char _ _ _ _ _ Hc). apply (IH false).
Qed.

Lemma shaped_at_start punct trailing p s :
  shaped punct trailing p s = true ->
  shaped punct trailing AtStart (lstrip s) = true.
Proof.
  revert p. induction s as [|c rest IH]; intros p H.
  - simpl. now rewrite orb_true_r.
  - destruct (shaped_cons _ _ _ _ _ H) as [(Hc & _ & _ & Hr)|(Hc & _ & Hr)].
    + simpl lstrip. rewrite Hc. eauto.
    + simpl lstrip. rewrite Hc. rewrite (shaped_char _ _ _ _ _ Hc), Hr.
      now rewrite andb_false_r.
Qed.

Lemma rstrip_shaped punct p s :
  shaped punct true p s = true ->
  rstrip s = [] \/ shaped punct false p (rstrip s) = true.
Proof.
  revert p. induction s as [|c rest IH]; intros p H.
  - now left.
  - destruct (shaped_cons _ _ _ _ _ H) as [(Hc & -> & -> & Hr)|(Hc & Hq & Hr)].
    + simpl rstrip. destruct (IH _ Hr) as [E|E].
      * rewrite E. now left.
      * destruct (rstrip rest) as [|d r] eqn:Er; [now left|].
        right. now rewrite shaped_space, E.
    + simpl rstrip. rewrite Hc. destruct (IH _ Hr) as [E|E].
      * rewrite E. right. rewrite (shaped_char _ _ _ _ _ Hc), Hq.
        reflexivity.
      * destruct (rstrip rest) as [|d r] eqn:Er.
        -- right. rewrite (shaped_char _ _ _ _ _ Hc), Hq. reflexivity.
        -- right. now rewrite (shaped_char _ _ _ _ _ Hc), Hq, E.
Qed.

(** Steps 1 and 2 together. *)
Lemma strip_sub_ws_runs_shaped text :
  shaped false false AtStart (strip (sub_ws_runs false text)) = true.
Proof.
  unfold strip.
  pose proof (sub_ws_runs_shaped false text) as H.
  apply shaped_at_start in H. apply rstrip_shaped in H.
  destruct H as [->|H]; [reflexivity|exact H].
Qed.

(** Step 3 on the result of steps 1 and 2. *)
Lemma sub_ws_before_punct_shaped p s :
  shaped false false p s = true ->
  if after_space p
  then shaped true false AfterChar (sub_ws_before_punct [SPACE] s) = true
  else shaped true false p (sub_ws_before_punct [] s) = true.
Proof.
  revert p. induction s as [|c rest IH]; intros p H.
  - destruct p; simpl in *; try discriminate; reflexivity.
  - destruct (shaped_cons _ _ _ _ _ H) as [(Hc & -> & -> & Hr)|(Hc & _ & Hr)].
    + apply (IH AfterSpace Hr).
    + specialize (IH AfterChar Hr). cbn [after_space] in IH.
      simpl sub_ws_before_punct. rewrite Hc.
      destruct (ispunct c) eqn:Hp; cbn [app];
        destruct p; cbn [after_space];
        rewrite ?shaped_space, (shaped_char _ _ _ _ _ Hc), ?Hp, IH;
        reflexivity.
Qed.

Lemma clean_text_neat text : neat (clean_text text) = true.
Proof.
  unfold neat, clean_text.
  apply (sub_ws_before_punct_shaped AtStart), strip_sub_ws_runs_shaped.
Qed.

(** Cleaned text is a fixed point of each step. *)
Lemma shaped_sub_ws_runs punct p s :
  shaped punct false p s = true ->
  sub_ws_runs (after_space p) s = s.
Proof.
  revert p. induction s as [|c rest IH]; intros p H.
  - reflexivity.
  - destruct (shaped_cons _ _ _ _ _ H) as [(Hc & -> & -> & Hr)|(Hc & _ & Hr)].
    + simpl. f_equal. apply (IH AfterSpace Hr).
    + simpl. rewrite Hc. f_equal. apply (IH AfterChar Hr).
Qed.

Lemma shaped_lstrip punct trailing s :
  shaped punct trailing AtStart s = true -> lstrip s = s.
Proof.
  destruct s as [|c rest]; [reflexivity|]. intros H.
  destruct (shaped_cons _ _ _ _ _ H) as [(_ & _ & Hp & _)|(Hc & _ & _)].
  - discriminate.
  - simpl. now rewrite Hc.
Qed.

Lemma shaped_rstrip punct p s :
  shaped punct false p s = true -> rstrip s = s.
Proof.
  revert p. induction s as [|c rest IH]; intros p H.
  - reflexivity.
  - destruct (shaped_cons _ _ _ _ _ H) as [(Hc & -> & -> & Hr)|(Hc & _ & Hr)].
    + simpl. rewrite (IH _ Hr). destruct rest; [discriminate|reflexivity].
    + simpl. rewrite (IH _ Hr), Hc. destruct rest; reflexivity.
Qed.

Lemma shaped_sub_ws_before_punct p s :
  shaped true false p s = true ->
  sub_ws_before_punct (if after_space p then [SPACE] else []) s
  = (if after_space p then [SPACE] else []) ++ s.
Proof.
  revert p. induction s as [|c rest IH]; intros p H.
  - destruct p; simpl in *; try discriminate; reflexivity.
  - destruct (shaped_cons _ _ _ _ _ H) as [(Hc & -> & -> & Hr)|(Hc & Hq & Hr)].
    + apply (IH AfterSpace Hr).
    + specialize (IH AfterChar Hr). cbn [after_space app] in IH.
      simpl sub_ws_before_punct. rewrite Hc, IH.
      destruct p; cbn [after_space andb] in *;
        try (destruct (ispunct c); reflexivity).
      rewrite Hq. reflexivity.
Qed.

Lemma neat_clean_text s : neat s = true -> clean_text s = s.
Proof.
  unfold neat, clean_text. intros H.
  pose proof (shaped_sub_ws_runs _ AtStart _ H) as E1.
  pose proof (shaped_sub_ws_before_punct AtStart _ H) as E2.
  cbn [after_space app] in E1, E2. rewrite E1. unfold strip.
  rewrite (shaped_lstrip _ _ _ H), (shaped_rstrip _ _ _ H).
  exact E2.
Qed.

Lemma shaped_no_adjacent p s :
  shaped true false p s = true ->
  adjacent space_then_space_or_mark s = false.
Proof.
  revert p. induction s as [|a rest IH]; intros p H; [reflexivity|].
  destruct rest as [|b r]; [reflexivity|].
  cbn [adjacent]. change (match r with [] => false | _ => _ end)
    with (adjacent space_then_space_or_mark (b :: r)) at 1.
  destruct (shaped_cons _ _ _ _ _ H) as [(Ha & -> & -> & Hr)|(Ha & _ & Hr)].
  - rewrite (IH _ Hr), orb_false_r.
    destruct (shaped_cons _ _ _ _ _ Hr) as [(_ & _ & Hp & _)|(Hb & Hq & _)];
      [discriminate|].
    cbn [after_space andb] in Hq. unfold space_then_space_or_mark.
    rewrite Hq, orb_false_r. cbn [andb]. rewrite N.eqb_refl. cbn [andb].
    apply N.eqb_neq. intros ->. discriminate.
  - rewrite (IH _ Hr), orb_false_r. unfold space_then_space_or_mark.
    replace (a =? SPACE) with false; [reflexivity|].
    symmetry. apply N.eqb_neq. intros ->. discriminate.
Qed.

(** What [adjacent] reports, in terms of the characters of the text. *)
Lemma adjacent_false_split bad s :
  adjacent bad s = false ->
  forall pre a b post, s = pre ++ a :: b :: post -> bad a b = false.
Proof.
  intros H pre. revert s H. induction pre as [|x pre IH]; intros s H a b post ->.
  - cbn in H. now apply orb_false_iff in H.
  - cbn [app adjacent] in H. destruct (pre ++ a :: b :: post) eqn:E.
    + destruct pre; discriminate.
    + apply orb_false_iff in H. destruct H as [_ H].
      eapply IH; [exact H|]. rewrite <- E. reflexivity.
Qed.

(** C7: [clean_text] is idempotent, and its output has no space that is
    followed by another space or by one of the marks [. , ! ? ; :]. *)
Theorem clean_text_idempotent_and_tight (x : pystr) :
  clean_text (clean_text x) = clean_text x
  /\ adjacent space_then_space_or_mark (clean_text x) = false.
Proof.
  pose proof (clean_text_neat x) as H. split.
  - now apply neat_clean_text.
  - now apply (shaped_no_adjacent AtStart).
Qed.

End CleanText.

(** ** Keyword filter *)

Section KeywordFilter.
Import PyStr Filter Examples.

Lemma str_eqb_eq (a b : pystr) : str_eqb a b = true <-> a = b.
Proof.
  revert b. induction a as [|x a IH]; intros [|y b]; simpl;
    try (split; [discriminate|discriminate]); [tauto|].
  unfold char_eqb. rewrite andb_true_iff, N.eqb_eq, IH.
  split; [intros [-> ->]; reflexivity|intros [= -> ->]; auto].
Qed.

Lemma str_eqb_neq (a b : pystr) : a <> b -> str_eqb a b = false.
Proof.
  intros H. destruct (str_eqb a b) eqn:E; [|reflexivity].
  apply str_eqb_eq in E. contradiction.
Qed.

Lemma filter_sublist {A} (f : A -> bool) (l : list A) :
  sublist (List.filter f l) l.
Proof.
  induction l as [|x l IH]; simpl; [constructor|].
  destruct (f x); now constructor.
Qed.

Lemma filter_filter_sublist {A} (f g : A -> bool) (l : list A) :
  (forall x, f x = true -> g x = true) ->
  sublist (List.filter f l) (List.filter g l).
Proof.
  intros Hfg. induction l as [|x l IH]; simpl; [constructor|].
  destruct (f x) eqn:Hf.
  - rewrite (Hfg _ Hf). now constructor.
  - destruct (g x); [now constructor|exact IH].
Qed.

Variable lower : pystr -> pystr.

(** C2, as stated, fails: in the default mode an empty keyword list
    matches no item. *)
Lemma empty_keywords_or_keeps_nothing :
  filter_by_keyword ascii_lower [climate_change; political_science] []
    (py "or")
  <> [climate_change; political_science].
Proof. vm_compute. discriminate. Qed.

(** C2, amended: with no keywords, mode ['and'] keeps every item and any
    other mode keeps none. *)
Theorem filter_by_keyword_no_keywords (items : list item) (mode : pystr) :
  filter_by_keyword lower items [] mode
  = if str_eqb mode (py "and") then items else [].
Proof.
  unfold filter_by_keyword, matches.
  destruct (str_eqb mode (py "and")); simpl;
    induction items as [|it items IH]; simpl; congruence.
Qed.

(** C3, as stated, fails: with no keywords, mode ['and'] keeps an item
    that mode ['or'] drops. *)
Lemma and_not_within_or_without_keywords :
  In climate_change
    (filter_by_keyword ascii_lower [climate_change] [] (py "and"))
  /\ ~ In climate_change
       (filter_by_keyword ascii_lower [climate_change] [] (py "or")).
Proof. vm_compute. split; [now left|tauto]. Qed.

Lemma matches_and_or (keywords : list pystr) (it : item) :
  keywords <> [] ->
  matches lower keywords (py "and") it = true ->
  matches lower keywords (py "or") it = true.
Proof.
  unfold matches. change (str_eqb (py "and") (py "and")) with true.
  change (str_eqb (py "or") (py "and")) with false. cbv iota.
  destruct keywords as [|kw rest]; [congruence|]. intros _. simpl.
  rewrite andb_true_iff. intros [-> _]. reflexivity.
Qed.

(** C3, amended: for a non-empty keyword list, what mode ['and'] keeps
    is a subsequence of what mode ['or'] keeps; every item kept under
    ['and'] is kept under ['or']. *)
Theorem and_within_or (items : list item) (keywords : list pystr) :
  keywords <> [] ->
  sublist (filter_by_keyword lower items keywords (py "and"))
          (filter_by_keyword lower items keywords (py "or"))
  /\ forall it,
       In it (filter_by_keyword lower items keywords (py "and")) ->
       In it (filter_by_keyword lower items keywords (py "or")).
Proof.
  intros Hk. unfold filter_by_keyword. split.
  - apply filter_filter_sublist. intros it. now apply matches_and_or.
  - intros it. rewrite !filter_In. intros [Hin Hm].
    split; [exact Hin|]. now apply matches_and_or.
Qed.

(** C10: any mode other than the exact string ['and'] filters as mode
    ['or'] does. *)
Theorem other_modes_are_or
  (items : list item) (keywords : list pystr) (mode : pystr) :
  mode <> py "and" ->
  filter_by_keyword lower items keywords mode
  = filter_by_keyword lower items keywords (py "or").
Proof.
  intros Hm. unfold filter_by_keyword, matches.
  rewrite (str_eqb_neq _ _ Hm).
  change (str_eqb (py "or") (py "and")) with false. reflexivity.
Qed.

End KeywordFilter.

Lemma and_within_or_witness :
  sublist
    (Filter.filter_by_keyword Examples.ascii_lower
       [Examples.climate_change; Examples.political_science]
       [PyStr.py "science"; PyStr.py "environment"] (PyStr.py "and"))
    (Filter.filter_by_keyword Examples.ascii_lower
       [Examples.climate_change; Examples.political_science]
       [PyStr.py "science"; PyStr.py "environment"] (PyStr.py "or")).
Proof.
  apply (and_within_or Examples.ascii_lower
           [Examples.climate_change; Examples.political_science]
           [PyStr.py "science"; PyStr.py "environment"]).
  discriminate.
Defined.

Lemma other_modes_are_or_witness :
  Filter.filter_by_keyword Examples.ascii_lower
    [Examples.climate_change; Examples.political_science]
    [PyStr.py "science"; PyStr.py "environment"] (PyStr.py "AND")
  = Filter.filter_by_keyword Examples.ascii_lower
      [Examples.climate_change; Examples.political_science]
      [PyStr.py "science"; PyStr.py "environment"] (PyStr.py "or").
Proof.
  apply (other_modes_are_or Examples.ascii_lower). vm_compute. discriminate.
Defined.

(** ** Link extraction *)

Section InternalLinks.
Import PyStr Soup Scraper LinkSpec.

Lemma node_induction (P : node -> Prop) :
  (forall cls s, P (Text cls s)) ->
  (forall e ch, Forall P ch -> P (Node e ch)) ->
  forall n, P n.
Proof.
  intros HT HN. fix IH 1. intros [cls s|e ch].
  - apply HT.
  - apply HN. induction ch as [|c ch IHch]; constructor.
    + apply IH.
    + exact IHch.
Qed.

Lemma flat_map_ext_Forall {A B} (f g : A -> list B) (l : list A) :
  Forall (fun x => f x = g x) l -> flat_map f l = flat_map g l.
Proof. induction 1 as [|x l Hx _ IH]; simpl; congruence. Qed.

Lemma fold_left_append {A B} (keep : A -> bool) (f : A -> B)
  (l : list A) (acc : list B) :
  fold_left (fun acc a => if keep a then acc ++ [f a] else acc) l acc
  = acc ++ List.map f (List.filter keep l).
Proof.
  revert acc. induction l as [|a l IH]; intros acc; simpl.
  - now rewrite app_nil_r.
  - rewrite IH. destruct (keep a); simpl; [|reflexivity].
    now rewrite <- app_assoc.
Qed.

Lemma map_filter_flat_map {A B} (keep : A -> bool) (f : A -> B)
  (l : list A) :
  List.map f (List.filter keep l)
  = flat_map (fun a => if keep a then [f a] else []) l.
Proof.
  induction l as [|a l IH]; simpl; [reflexivity|].
  destruct (keep a); simpl; congruence.
Qed.

Lemma flat_map_flat_map {A B C} (f : A -> list B) (g : B -> list C)
  (l : list A) :
  flat_map g (flat_map f l) = flat_map (fun a => flat_map g (f a)) l.
Proof.
  induction l as [|a l IH]; simpl; [reflexivity|].
  now rewrite flat_map_app, IH.
Qed.

Lemma find_internal_links_flat_map (s : soup) :
  find_internal_links s = flat_map link_of (soup_descendants s).
Proof.
  unfold find_internal_links, select.
  rewrite (fold_left_append
             (fun a => negb (contains (py ":") (href_of a)))
             (fun a => WIKIPEDIA ++ href_of a)).
  cbn [app]. rewrite map_filter_flat_map.
  induction (soup_descendants s) as [|t l IH]; [reflexivity|].
  cbn [List.filter flat_map]. unfold link_of at 1.
  destruct (matches_selector content_wiki_anchors t); cbn [andb flat_map].
  - now rewrite IH.
  - exact IH.
Qed.

Lemma link_of_element (ancestors : list element) (e : element)
  (ch : list node) :
  link_of {| parents := ancestors; elem := e; contents := ch |}
  = if existsb is_content_container ancestors && str_eqb (name e) (py "a")
    then match qualifying_target e with
         | Some target => [py "https://en.wikipedia.org" ++ target]
         | None => []
         end
    else [].
Proof.
  unfold link_of, matches_selector, href_of, qualifying_target.
  cbn [elem parents subject context content_wiki_anchors].
  assert (Hctx : forall l,
             matches_context (context content_wiki_anchors) l
             = existsb is_content_container l).
  { induction l as [|p up IHl]; [reflexivity|].
    cbn [existsb]. rewrite <- IHl. cbn [context content_wiki_anchors
      matches_context]. unfold is_content_container, matches_compound.
    cbn [sel_name sel_class sel_id sel_attr_prefix opt_test].
    now rewrite !andb_true_r. }
  cbn [context content_wiki_anchors] in Hctx. rewrite Hctx.
  unfold matches_compound, has_attr_prefix.
  cbn [sel_name sel_class sel_id sel_attr_prefix opt_test fst snd].
  rewrite !andb_true_r.
  destruct (existsb is_content_container ancestors);
    destruct (str_eqb (name e) (py "a"));
    destruct (attr (py "href") e) as [target|];
    cbn [andb]; try reflexivity;
    try (destruct (startswith (py "/wiki/") target); reflexivity).
  destruct (startswith (py "/wiki/") target);
    destruct (contains (py ":") target); reflexivity.
Qed.

Lemma links_of_walk (n : node) :
  forall ancestors,
    flat_map link_of (tags_of ancestors n)
    = links_below (existsb is_content_container ancestors) n.
Proof.
  induction n as [cls s|e ch IH] using node_induction; intros ancestors.
  - reflexivity.
  - cbn [tags_of flat_map links_below]. rewrite link_of_element.
    f_equal. rewrite flat_map_flat_map. apply flat_map_ext_Forall.
    eapply Forall_impl; [exact IH|]. cbn beta. intros c Hc.
    rewrite (Hc (e :: ancestors)). cbn [existsb].
    now rewrite orb_comm.
Qed.

Lemma find_internal_links_refines (s : soup) :
  find_internal_links s = extractInternalLinks s.
Proof.
  rewrite find_internal_links_flat_map.
  unfold soup_descendants, extractInternalLinks.
  rewrite flat_map_flat_map. apply flat_map_ext_Forall.
  apply Forall_forall. intros n _. apply (links_of_walk n []).
Qed.

Lemma startswith_app (p s : pystr) :
  startswith p s = true -> exists rest, s = p ++ rest.
Proof.
  revert s. induction p as [|x p IH]; intros s H.
  - now exists s.
  - destruct s as [|y s]; [discriminate|]. simpl in H.
    apply andb_true_iff in H. destruct H as [Hxy Hp].
    apply N.eqb_eq in Hxy. subst y.
    destruct (IH _ Hp) as [rest ->]. now exists rest.
Qed.

Lemma contains_char_false (c : char) (s : pystr) :
  contains [c] s = false -> ~ In c s.
Proof.
  induction s as [|y s IH]; intros H; [tauto|].
  cbn [contains startswith] in H. rewrite andb_true_r in H.
  apply orb_false_iff in H. destruct H as [Hcy Hs].
  apply N.eqb_neq in Hcy. intros [->|Hin]; [congruence|].
  now apply IH.
Qed.

Lemma qualifying_target_path (e : element) (target : pystr) :
  qualifying_target e = Some target ->
  exists rest,
    py "https://en.wikipedia.org" ++ target
    = py "https://en.wikipedia.org/wiki/" ++ rest
    /\ ~ In COLON rest.
Proof.
  unfold qualifying_target. destruct (attr (py "href") e) as [h|];
    [|discriminate].
  destruct (startswith (py "/wiki/") h) eqn:Hp; [|discriminate].
  destruct (contains (py ":") h) eqn:Hc; [discriminate|].
  intros [= <-]. destruct (startswith_app _ _ Hp) as [rest ->].
  exists rest. split; [reflexivity|].
  apply contains_char_false in Hc. intros Hin. apply Hc.
  apply in_or_app. now right.
Qed.

Lemma links_below_paths (n : node) :
  forall inside,
    Forall (fun u => exists rest,
                u = py "https://en.wikipedia.org/wiki/" ++ rest
                /\ ~ In COLON rest)
      (links_below inside n).
Proof.
  induction n as [cls s|e ch IH] using node_induction; intros inside.
  - constructor.
  - cbn [links_below]. apply Forall_app. split.
    + destruct (inside && str_eqb (name e) (py "a")); [|constructor].
      destruct (qualifying_target e) as [target|] eqn:Hq; [|constructor].
      constructor; [|constructor]. now apply (qualifying_target_path e).
    + induction IH as [|c ch Hc _ IHch]; cbn [flat_map]; [constructor|].
      apply Forall_app. split; [apply Hc|exact IHch].
Qed.

(** C8: [find_internal_links] returns, in document order and without
    removing repetitions, the absolute URL of every anchor inside the
    main content container whose target begins with [/wiki/] and has no
    colon; what follows [/wiki/] in a returned URL has no colon. *)
Theorem find_internal_links_exact (doc : soup) :
  find_internal_links doc = extractInternalLinks doc
  /\ Forall (fun u => exists rest,
                u = py "https://en.wikipedia.org/wiki/" ++ rest
                /\ ~ In COLON rest)
       (find_internal_links doc).
Proof.
  split; [apply find_internal_links_refines|].
  rewrite find_internal_links_refines. unfold extractInternalLinks.
  induction doc as [|n doc IH]; cbn [flat_map]; [constructor|].
  apply Forall_app. split; [apply links_below_paths|exact IH].
Qed.

(** A target that occurs twice in the markup is returned twice. *)
Example find_internal_links_keeps_repetitions :
  find_internal_links Examples.dog_page
  = [ py "https://en.wikipedia.org/wiki/Domestication";
      py "https://en.wikipedia.org/wiki/Cat";
      py "https://en.wikipedia.org/wiki/Domestication" ].
Proof. vm_compute. reflexivity. Qed.

End InternalLinks.

(** ** Topic resolution *)

Section Resolution.
Import PyStr Soup Filter Scraper Examples.

Variable w : world.

(** A transport error of the direct fetch leaves [get_soup_for_topic]
    as it is: no search is made. *)
Lemma direct_fetch_raises (topic : pystr) (log : list request) (e : exn) :
  fetch w (length log) (build_wiki_url (replace_char SPACE UNDERSCORE topic))
  = Raises e ->
  get_soup_for_topic w topic log
  = (Raises e,
     log ++ [GetPage (build_wiki_url (replace_char SPACE UNDERSCORE topic))]).
Proof.
  intros H. unfold get_soup_for_topic, bind, requests_get. now rewrite H.
Qed.

(** The fast path: one request, no search. *)
Lemma direct_fetch_succeeds (topic : pystr) (log : list request)
  (resp : page_response) :
  fetch w (length log) (build_wiki_url (replace_char SPACE UNDERSCORE topic))
  = Returns resp ->
  status_code resp = 200%Z ->
  get_soup_for_topic w topic log
  = (Returns (parsed resp, replace_char SPACE UNDERSCORE topic),
     log ++ [GetPage (build_wiki_url (replace_char SPACE UNDERSCORE topic))]).
Proof.
  intros H H200. unfold get_soup_for_topic, bind, requests_get.
  rewrite H, H200. reflexivity.
Qed.



End Resolution.


(** ** The loop over the related links *)

Section Collect.
Import PyStr Soup Filter Scraper RelatedLinks.

Variable w : world.
Variable build : pystr -> pystr -> soup -> item.

Lemma collect_loaded (acc : list item) (url : pystr) (rest : list pystr)
  (log log' : list request) (page : soup) (actual : pystr) :
  get_soup_for_topic w (rsplit1_last (py "/wiki/") url) log
  = (Returns (page, actual), log') ->
  collect w build acc (url :: rest) log
  = collect w build
      (acc ++ [build (rsplit1_last (py "/wiki/") url) url page]) rest log'.
Proof. intros H. cbn [collect]. unfold try_except. now rewrite H. Qed.

Lemma collect_failed (acc : list item) (url : pystr) (rest : list pystr)
  (log log' : list request) (e : exn) :
  get_soup_for_topic w (rsplit1_last (py "/wiki/") url) log
  = (Raises e, log') ->
  collect w build acc (url :: rest) log = collect w build acc rest log'.
Proof. intros H. cbn [collect]. unfold try_except. now rewrite H. Qed.

(** The loop never raises, it only adds to [acc], and every item it adds
    was built for one of the links, in their order. *)
Lemma collect_returns (P : item -> Prop) (links : list pystr) :
  (forall subtopic url page, P (build subtopic url page)) ->
  forall acc log,
  exists added log',
    collect w build acc links log = (Returns (acc ++ added), log')
    /\ Forall P added
    /\ (length added <= length links)%nat
    /\ ((forall subtopic url page,
           Filter.url (build subtopic url page) = Some url) ->
        sublist (List.map Filter.url added) (List.map Some links)).
Proof.
  intros HP. induction links as [|u rest IH]; intros acc log.
  - exists [], log. cbn [collect]. unfold ret. rewrite app_nil_r.
    repeat split; [constructor|reflexivity|intros _; constructor].
  - destruct (get_soup_for_topic w (rsplit1_last (py "/wiki/") u) log)
      as [[[page actual]|e] log1] eqn:Hget.
    + rewrite (collect_loaded _ _ _ _ _ _ _ Hget).
      destruct (IH (acc ++ [build (rsplit1_last (py "/wiki/") u) u page]) log1)
        as (added & log' & Hrun & Hall & Hlen & Hsub).
      exists (build (rsplit1_last (py "/wiki/") u) u page :: added), log'.
      rewrite Hrun, <- app_assoc. cbn [app List.map length].
      repeat split.
      * constructor; [apply HP|exact Hall].
      * lia.
      * intros Hurl. rewrite Hurl. apply sublist_skip. now apply Hsub.
    + rewrite (collect_failed _ _ _ _ _ _ Hget).
      destruct (IH acc log1) as (added & log' & Hrun & Hall & Hlen & Hsub).
      exists added, log'. rewrite Hrun. cbn [List.map length].
      repeat split; [exact Hall|lia|].
      intros Hurl. apply sublist_cons. now apply Hsub.
Qed.

(** When every lookup succeeds, the loop adds one item for each link. *)
Lemma collect_all_resolve (links : list pystr) :
  (forall subtopic url page, Filter.url (build subtopic url page) = Some url) ->
  forall acc log added log',
    all_resolve w links log = true ->
    collect w build acc links log = (Returns (acc ++ added), log') ->
    List.map Filter.url added = List.map Some links.
Proof.
  intros Hurl. induction links as [|u rest IH];
    intros acc log added log' Hall Hrun.
  - cbn [collect] in Hrun. unfold ret in Hrun.
    injection Hrun as Hacc _.
    rewrite <- (app_nil_r acc) in Hacc at 1.
    apply app_inv_head in Hacc. now subst added.
  - cbn [all_resolve] in Hall.
    destruct (get_soup_for_topic w (rsplit1_last (py "/wiki/") u) log)
      as [[[page actual]|e] log1] eqn:Hget; [|discriminate].
    rewrite (collect_loaded _ _ _ _ _ _ _ Hget) in Hrun.
    destruct (collect_returns (fun _ => True) rest (fun _ _ _ => I)
                (acc ++ [build (rsplit1_last (py "/wiki/") u) u page]) log1)
      as (tail & log2 & Hrun2 & _).
    rewrite Hrun2 in Hrun. injection Hrun as Hacc _.
    rewrite <- app_assoc in Hacc. apply app_inv_head in Hacc.
    subst added. cbn [app List.map]. rewrite Hurl. f_equal.
    exact (IH _ _ _ _ Hall Hrun2).
Qed.


(** Every item that the loop adds was built for one of the links, from
    the page that a lookup of that link returned. *)
Lemma collect_added_fetched (links : list pystr) :
  forall acc log,
  exists added log',
    collect w build acc links log = (Returns (acc ++ added), log')
    /\ Forall (fun it => exists u page actual l1 l2,
                  In u links
                  /\ get_soup_for_topic w (rsplit1_last (py "/wiki/") u) l1
                     = (Returns (page, actual), l2)
                  /\ it = build (rsplit1_last (py "/wiki/") u) u page)
         added.
Proof.
  induction links as [|u rest IH]; intros acc log.
  - exists [], log. cbn [collect]. unfold ret. rewrite app_nil_r.
    split; [reflexivity|constructor].
  - destruct (get_soup_for_topic w (rsplit1_last (py "/wiki/") u) log)
      as [[[page actual]|e] log1] eqn:Hget.
    + rewrite (collect_loaded _ _ _ _ _ _ _ Hget).
      destruct (IH (acc ++ [build (rsplit1_last (py "/wiki/") u) u page]) log1)
        as (added & log' & Hrun & Hall).
      exists (build (rsplit1_last (py "/wiki/") u) u page :: added), log'.
      rewrite Hrun, <- app_assoc. split; [reflexivity|].
      constructor.
      * exists u, page, actual, log, log1.
        split; [now left|]. split; [exact Hget|reflexivity].
      * eapply Forall_impl; [exact Hall|]. cbn beta.
        intros it (u' & page' & actual' & l1 & l2 & Hin & Hfetched & ->).
        exists u', page', actual', l1, l2.
        split; [now right|]. split; [exact Hfetched|reflexivity].
    + rewrite (collect_failed _ _ _ _ _ _ Hget).
      destruct (IH acc log1) as (added & log' & Hrun & Hall).
      exists added, log'. split; [exact Hrun|].
      eapply Forall_impl; [exact Hall|]. cbn beta.
      intros it (u' & page' & actual' & l1 & l2 & Hin & Hfetched & ->).
      exists u', page', actual', l1, l2.
      split; [now right|]. split; [exact Hfetched|reflexivity].
Qed.

End Collect.

(** ** The two pipelines *)

Section Pipelines.
Import PyStr Soup Filter Scraper Summarizer RelatedLinks Examples.

Variable lower : pystr -> pystr.
Variable w : world.

Lemma related_loop_collect (mode : pystr) (links : list pystr) :
  forall acc log,
    App.related_loop w mode acc links log
    = collect w (App.related_item mode) acc links log.
Proof.
  induction links as [|u rest IH]; intros acc log; [reflexivity|].
  cbn [App.related_loop collect]. unfold try_except.
  destruct (get_soup_for_topic w (rsplit1_last (py "/wiki/") u) log)
    as [[r|e] log1]; apply IH.
Qed.

Lemma results_loop_collect (mode : pystr) (links : list pystr) :
  forall acc log,
    Cli.results_loop w mode acc links log
    = collect w (Cli.result_item mode) acc links log.
Proof.
  induction links as [|u rest IH]; intros acc log; [reflexivity|].
  cbn [Cli.results_loop collect]. unfold try_except.
  destruct (get_soup_for_topic w (rsplit1_last (py "/wiki/") u) log)
    as [[r|e] log1]; apply IH.
Qed.

Lemma related_item_url (mode subtopic url : pystr) (page : soup) :
  Filter.url (App.related_item mode subtopic url page) = Some url.
Proof. unfold App.related_item. now destruct (App.wants_summaries mode). Qed.

Lemma result_item_url (mode subtopic url : pystr) (page : soup) :
  Filter.url (Cli.result_item mode subtopic url page) = Some url.
Proof. reflexivity. Qed.

Lemma index_main_fails (f : App.form) (log log1 : list request) (e : exn) :
  get_soup_for_topic w (App.form_topic f) log = (Raises e, log1) ->
  App.index lower w f log = (Returns (App.index_html e), log1).
Proof. intros H. unfold App.index, try_except. now rewrite H. Qed.

Lemma index_main_resolves (f : App.form) (log log1 log2 : list request)
  (page : soup) (actual : pystr) (related : list item) :
  get_soup_for_topic w (App.form_topic f) log = (Returns (page, actual), log1) ->
  App.related_loop w (App.form_mode f) []
    (slice_to (App.form_limit f) (find_internal_links page)) log1
  = (Returns related, log2) ->
  App.index lower w f log
  = (Returns
       (App.results_html
          (replace_char UNDERSCORE SPACE (App.form_topic f))
          (App.main_article_of (App.form_mode f) actual page)
          (filter_step lower (App.form_mode f) (split (App.form_keywords f))
             related)
          (App.form_mode f) (split (App.form_keywords f)) (App.form_limit f)),
     log2).
Proof.
  intros Hmain Hloop. unfold App.index, try_except, bind. rewrite Hmain.
  cbn [fst snd]. rewrite Hloop. reflexivity.
Qed.

Lemma main_lookup_fails (a : Cli.args) (log log1 : list request) (e : exn) :
  get_soup_for_topic w (Cli.topic a) log = (Raises e, log1) ->
  Cli.main lower w a log = (Returns (Cli.printed_error e), log1).
Proof. intros H. unfold Cli.main, try_except. now rewrite H. Qed.

Lemma main_lookup_resolves (a : Cli.args) (log log1 log2 : list request)
  (page : soup) (actual : pystr) (results : list item) :
  get_soup_for_topic w (Cli.topic a) log = (Returns (page, actual), log1) ->
  Cli.results_loop w (Cli.mode a) []
    (slice_to (Cli.limit a) (find_internal_links page)) log1
  = (Returns results, log2) ->
  Cli.main lower w a log
  = (Returns
       (Cli.sent (Cli.output a) actual
          (filter_step lower (Cli.mode a) (Cli.keywords a) results)),
     log2).
Proof.
  intros Hmain Hloop. unfold Cli.main, try_except, bind. rewrite Hmain.
  cbn [fst snd]. rewrite Hloop. reflexivity.
Qed.

Lemma related_loop_returns (P : item -> Prop) (mode : pystr)
  (links : list pystr) (acc : list item) (log : list request) :
  (forall subtopic url page, P (App.related_item mode subtopic url page)) ->
  exists added log',
    App.related_loop w mode acc links log = (Returns (acc ++ added), log')
    /\ Forall P added
    /\ (length added <= length links)%nat
    /\ sublist (List.map Filter.url added) (List.map Some links).
Proof.
  intros HP.
  destruct (collect_returns w (App.related_item mode) P links HP acc log)
    as (added & log' & Hrun & Hall & Hlen & Hsub).
  exists added, log'. rewrite related_loop_collect.
  repeat split; try assumption. apply Hsub, related_item_url.
Qed.

Lemma results_loop_returns (P : item -> Prop) (mode : pystr)
  (links : list pystr) (acc : list item) (log : list request) :
  (forall subtopic url page, P (Cli.result_item mode subtopic url page)) ->
  exists added log',
    Cli.results_loop w mode acc links log = (Returns (acc ++ added), log')
    /\ Forall P added
    /\ (length added <= length links)%nat
    /\ sublist (List.map Filter.url added) (List.map Some links).
Proof.
  intros HP.
  destruct (collect_returns w (Cli.result_item mode) P links HP acc log)
    as (added & log' & Hrun & Hall & Hlen & Hsub).
  exists added, log'. rewrite results_loop_collect.
  repeat split; try assumption. apply Hsub, result_item_url.
Qed.




Lemma slice_to_nonneg {A} (n : Z) (xs : list A) :
  (0 <= n)%Z -> slice_to n xs = firstn (Z.to_nat n) xs.
Proof. intros H. unfold slice_to. apply Z.leb_le in H. now rewrite H. Qed.

Lemma map_url_length (items : list item) (links : list pystr) :
  List.map Filter.url items = List.map Some links ->
  length items = length links.
Proof.
  intros H. apply (f_equal (@length _)) in H.
  now rewrite !length_map in H.
Qed.

(** C6, as stated, fails: with limit 1 and three qualifying links in the
    main document, [related] is empty when the first link does not load. *)
Lemma dead_link_leaves_fewer_than_limit :
  (1 <= length (find_internal_links dog_page))%nat
  /\ App.index ascii_lower dead_links (dog_form "links" 1 "") []
     = (Returns
          (App.results_html (py "Dog")
             {| title := Some (py "Dog");
                url := Some (py "https://en.wikipedia.org/wiki/Dog");
                excerpt := Some []; categories := Some [] |}
             [] (py "links") [] 1%Z),
        [ GetPage (py "https://en.wikipedia.org/wiki/Dog");
          GetPage (py "https://en.wikipedia.org/wiki/Domestication");
          GetSearch API_URL (py "Domestication") ]).
Proof. split; [vm_compute; lia|vm_compute; reflexivity]. Qed.

(** C6, amended: for a limit L that is not negative, [related] before
    filtering has at most L items, and their URLs are a subsequence, in
    document order, of the first L qualifying links of the main document;
    when the document has at least L qualifying links and the lookup of
    each of the first L succeeds, [related] has exactly L items, whose
    URLs are those L links in order. *)
Theorem related_within_limit
  (topic mode : pystr) (limit : Z) (keywords_field : pystr)
  (keywords : list pystr) (output : pystr)
  (log log1 : list request) (page : soup) (actual : pystr) :
  (0 <= limit)%Z ->
  get_soup_for_topic w topic log = (Returns (page, actual), log1) ->
  let first := firstn (Z.to_nat limit) (find_internal_links page) in
  (exists related log2,
      App.related_loop w mode []
        (slice_to limit (find_internal_links page)) log1
      = (Returns related, log2)
      /\ App.index lower w
           {| App.form_topic := topic; App.form_mode := mode;
              App.form_limit := limit;
              App.form_keywords := keywords_field |} log
         = (Returns
              (App.results_html (replace_char UNDERSCORE SPACE topic)
                 (App.main_article_of mode actual page)
                 (filter_step lower mode (split keywords_field) related)
                 mode (split keywords_field) limit),
            log2)
      /\ (length related <= Z.to_nat limit)%nat
      /\ sublist (List.map Filter.url related) (List.map Some first)
      /\ (all_resolve w first log1 = true ->
          (Z.to_nat limit <= length (find_internal_links page))%nat ->
          List.map Filter.url related = List.map Some first
          /\ length related = Z.to_nat limit))
  /\ (exists results log2,
        Cli.results_loop w mode []
          (slice_to limit (find_internal_links page)) log1
        = (Returns results, log2)
        /\ Cli.main lower w
             {| Cli.topic := topic; Cli.mode := mode; Cli.limit := limit;
                Cli.keywords := keywords; Cli.output := output |} log
           = (Returns
                (Cli.sent output actual
                   (filter_step lower mode keywords results)),
              log2)
        /\ (length results <= Z.to_nat limit)%nat
        /\ sublist (List.map Filter.url results) (List.map Some first)
        /\ (all_resolve w first log1 = true ->
            (Z.to_nat limit <= length (find_internal_links page))%nat ->
            List.map Filter.url results = List.map Some first
            /\ length results = Z.to_nat limit)).
Proof.
  intros Hlimit Hmain first.
  assert (Hfirst : (length first <= Z.to_nat limit)%nat).
  { unfold first. rewrite length_firstn. lia. }
  rewrite (slice_to_nonneg _ _ Hlimit). fold first. split.
  - destruct (related_loop_returns (fun _ => True) mode first [] log1
                (fun _ _ _ => I))
      as (related & log2 & Hloop & _ & Hlen & Hsub).
    cbn [app] in Hloop. exists related, log2.
    split; [exact Hloop|]. split.
    { apply (index_main_resolves
               {| App.form_topic := topic; App.form_mode := mode;
                  App.form_limit := limit;
                  App.form_keywords := keywords_field |}
               log log1 log2 page actual related Hmain).
      cbn [App.form_mode App.form_limit].
      now rewrite (slice_to_nonneg _ _ Hlimit). }
    split; [lia|]. split; [exact Hsub|].
    intros Hall Hmany.
    assert (Hurls : List.map Filter.url related = List.map Some first).
    { rewrite related_loop_collect in Hloop.
      exact (collect_all_resolve w _ first (related_item_url mode)
               [] log1 related log2 Hall Hloop). }
    split; [exact Hurls|].
    rewrite (map_url_length _ _ Hurls). unfold first.
    rewrite length_firstn. lia.
  - destruct (results_loop_returns (fun _ => True) mode first [] log1
                (fun _ _ _ => I))
      as (results & log2 & Hloop & _ & Hlen & Hsub).
    cbn [app] in Hloop. exists results, log2.
    split; [exact Hloop|]. split.
    { apply (main_lookup_resolves
               {| Cli.topic := topic; Cli.mode := mode; Cli.limit := limit;
                  Cli.keywords := keywords; Cli.output := output |}
               log log1 log2 page actual results Hmain).
      cbn [Cli.mode Cli.limit].
      now rewrite (slice_to_nonneg _ _ Hlimit). }
    split; [lia|]. split; [exact Hsub|].
    intros Hall Hmany.
    assert (Hurls : List.map Filter.url results = List.map Some first).
    { rewrite results_loop_collect in Hloop.
      exact (collect_all_resolve w _ first (result_item_url mode)
               [] log1 results log2 Hall Hloop). }
    split; [exact Hurls|].
    rewrite (map_url_length _ _ Hurls). unfold first.
    rewrite length_firstn. lia.
Qed.


Lemma related_loop_filtered (acc : list item) (links : list pystr)
  (log : list request) :
  App.related_loop w (py "filtered") acc links log
  = App.related_loop w (py "summaries") acc links log.
Proof. rewrite !related_loop_collect. reflexivity. Qed.

Lemma results_loop_filtered (acc : list item) (links : list pystr)
  (log : list request) :
  Cli.results_loop w (py "filtered") acc links log
  = Cli.results_loop w (py "summaries") acc links log.
Proof. rewrite !results_loop_collect. reflexivity. Qed.


Lemma wants_summaries_false (mode : pystr) :
  mode <> py "summaries" -> mode <> py "filtered" ->
  App.wants_summaries mode = false /\ Cli.wants_summaries mode = false.
Proof.
  intros Hs Hf. unfold App.wants_summaries, Cli.wants_summaries.
  now rewrite (str_eqb_neq _ _ Hs), (str_eqb_neq _ _ Hf).
Qed.

(** C1, as stated, fails: the command-line pipeline fills [categories] in
    mode [links] too. *)
Lemma cli_links_mode_has_categories :
  Cli.main ascii_lower all_served (dog_args "links" 1 []) []
  = (Returns
       (Cli.sent (py "console") (py "Dog")
          [ {| title := Some (py "Domestication");
               url := Some (py "https://en.wikipedia.org/wiki/Domestication");
               excerpt := Some [];
               categories := Some [py "Cats"] |} ]),
     [ GetPage (py "https://en.wikipedia.org/wiki/Dog");
       GetPage (py "https://en.wikipedia.org/wiki/Domestication") ]).
Proof. vm_compute. reflexivity. Qed.

Lemma filter_step_Forall {P : item -> Prop} (mode : pystr)
  (keywords : list pystr) (items : list item) :
  Forall P items -> Forall P (filter_step lower mode keywords items).
Proof.
  intros H. unfold filter_step.
  destruct (str_eqb mode (py "filtered") && truthy keywords); [|exact H].
  unfold filter_by_keyword_default, filter_by_keyword.
  apply List.Forall_forall. intros it Hit. apply filter_In in Hit.
  rewrite List.Forall_forall in H. now apply H.
Qed.

(** C1, amended: when the mode is neither [summaries] nor [filtered] (so
    in mode [links]), the web pipeline leaves the excerpt and the
    categories of the main article and of every related item empty, and
    the command-line pipeline leaves the excerpt of every item empty;
    in every mode the categories of an item of the command-line pipeline
    are the ones extracted from the page fetched for the item's link. *)
Theorem links_mode_leaves_summaries_empty
  (topic mode : pystr) (limit : Z) (keywords_field : pystr)
  (keywords : list pystr) (output : pystr) (log : list request) :
  mode <> py "summaries" ->
  mode <> py "filtered" ->
  (forall original main related mode' kws lim log',
      App.index lower w
        {| App.form_topic := topic; App.form_mode := mode;
           App.form_limit := limit; App.form_keywords := keywords_field |} log
      = (Returns (App.results_html original main related mode' kws lim), log')
      ->
      excerpt main = Some [] /\ categories main = Some []
      /\ Forall (fun it => excerpt it = Some [] /\ categories it = Some [])
           related)
  /\ (forall out actual results log',
        Cli.main lower w
          {| Cli.topic := topic; Cli.mode := mode; Cli.limit := limit;
             Cli.keywords := keywords; Cli.output := output |} log
        = (Returns (Cli.sent out actual results), log') ->
        Forall (fun it => excerpt it = Some []) results)
  /\ (forall any_mode out actual results log',
        Cli.main lower w
          {| Cli.topic := topic; Cli.mode := any_mode; Cli.limit := limit;
             Cli.keywords := keywords; Cli.output := output |} log
        = (Returns (Cli.sent out actual results), log') ->
        Forall (fun it => exists link page resolved before after,
                    get_soup_for_topic w (rsplit1_last (py "/wiki/") link)
                      before
                    = (Returns (page, resolved), after)
                    /\ Filter.url it = Some link
                    /\ categories it = Some (get_categories page))
          results).
Proof.
  intros Hs Hf. destruct (wants_summaries_false mode Hs Hf) as [Happ Hcli].
  assert (Hstep : forall kws items, filter_step lower mode kws items = items).
  { intros kws items. unfold filter_step.
    now rewrite (str_eqb_neq _ _ Hf). }
  split; [|split].
  - intros original main related mode' kws lim log' Hrun.
    destruct (get_soup_for_topic w topic log) as [[[page actual]|e] log1]
      eqn:Hmain.
    + destruct (related_loop_returns
                  (fun it => excerpt it = Some [] /\ categories it = Some [])
                  mode (slice_to limit (find_internal_links page)) [] log1)
        as (added & log2 & Hloop & Hall & _).
      { intros subtopic url page'. unfold App.related_item.
        rewrite Happ. split; reflexivity. }
      cbn [app] in Hloop.
      rewrite (index_main_resolves
                 {| App.form_topic := topic; App.form_mode := mode;
                    App.form_limit := limit;
                    App.form_keywords := keywords_field |}
                 log log1 log2 page actual added Hmain Hloop) in Hrun.
      cbn [App.form_topic App.form_mode App.form_limit App.form_keywords]
        in Hrun.
      rewrite Hstep in Hrun. injection Hrun as _ <- <- _ _ _ _.
      unfold App.main_article_of. rewrite Happ.
      split; [reflexivity|]. split; [reflexivity|exact Hall].
    + unfold App.index, try_except in Hrun. cbn [App.form_topic] in Hrun.
      rewrite Hmain in Hrun. discriminate.
  - intros out actual results log' Hrun.
    destruct (get_soup_for_topic w topic log) as [[[page actual']|e] log1]
      eqn:Hmain.
    + destruct (results_loop_returns
                  (fun it => excerpt it = Some [])
                  mode (slice_to limit (find_internal_links page)) [] log1)
        as (added & log2 & Hloop & Hall & _).
      { intros subtopic url page'. unfold Cli.result_item.
        rewrite Hcli. reflexivity. }
      cbn [app] in Hloop.
      rewrite (main_lookup_resolves
                 {| Cli.topic := topic; Cli.mode := mode; Cli.limit := limit;
                    Cli.keywords := keywords; Cli.output := output |}
                 log log1 log2 page actual' added Hmain Hloop) in Hrun.
      cbn [Cli.topic Cli.mode Cli.limit Cli.keywords Cli.output] in Hrun.
      rewrite Hstep in Hrun. injection Hrun as _ _ <- _. exact Hall.
    + unfold Cli.main, try_except in Hrun. cbn [Cli.topic] in Hrun.
      rewrite Hmain in Hrun. discriminate.
  - intros any_mode out actual results log' Hrun.
    destruct (get_soup_for_topic w topic log) as [[[page actual']|e] log1]
      eqn:Hmain.
    + destruct (collect_added_fetched w (Cli.result_item any_mode)
                  (slice_to limit (find_internal_links page)) [] log1)
        as (added & log2 & Hloop & Hall).
      cbn [app] in Hloop. rewrite <- results_loop_collect in Hloop.
      rewrite (main_lookup_resolves
                 {| Cli.topic := topic; Cli.mode := any_mode;
                    Cli.limit := limit; Cli.keywords := keywords;
                    Cli.output := output |}
                 log log1 log2 page actual' added Hmain Hloop) in Hrun.
      cbn [Cli.topic Cli.mode Cli.limit Cli.keywords Cli.output] in Hrun.
      injection Hrun as _ _ <- _. apply filter_step_Forall.
      eapply Forall_impl; [exact Hall|]. cbn beta.
      intros it (u & page' & resolved & l1 & l2 & _ & Hfetched & ->).
      exists u, page', resolved, l1, l2.
      split; [exact Hfetched|]. split; reflexivity.
    + unfold Cli.main, try_except in Hrun. cbn [Cli.topic] in Hrun.
      rewrite Hmain in Hrun. discriminate.
Qed.

End Pipelines.

Lemma related_within_limit_witness :
  exists related log2,
    App.index Examples.ascii_lower Examples.all_served
      (Examples.dog_form "links" 2 "") []
    = (Scraper.Returns
         (App.results_html (PyStr.py "Dog")
            (App.main_article_of (PyStr.py "links") (PyStr.py "Dog")
               Examples.dog_page)
            related (PyStr.py "links") [] 2%Z),
       log2)
    /\ List.map Filter.url related
       = [ Some (PyStr.py "https://en.wikipedia.org/wiki/Domestication");
           Some (PyStr.py "https://en.wikipedia.org/wiki/Cat") ]
    /\ length related = 2%nat.
Proof.
  destruct (related_within_limit Examples.ascii_lower Examples.all_served
              (PyStr.py "Dog") (PyStr.py "links") 2 (PyStr.py "") []
              (PyStr.py "console") []
              [Scraper.GetPage (PyStr.py "https://en.wikipedia.org/wiki/Dog")]
              Examples.dog_page (PyStr.py "Dog"))
    as [(related & log2 & _ & Hindex & _ & _ & Hexact) _].
  - lia.
  - vm_compute. reflexivity.
  - exists related, log2. split; [exact Hindex|].
    apply Hexact; [vm_compute; reflexivity|vm_compute; lia].
Defined.


Lemma links_mode_leaves_summaries_empty_witness :
  exists main related log',
    App.index Examples.ascii_lower Examples.all_served
      (Examples.dog_form "links" 3 "") []
    = (Scraper.Returns
         (App.results_html (PyStr.py "Dog") main related (PyStr.py "links")
            [] 3%Z),
       log')
    /\ Filter.excerpt main = Some []
    /\ Filter.categories main = Some []
    /\ Forall (fun it => Filter.excerpt it = Some []
                         /\ Filter.categories it = Some [])
         related.
Proof.
  destruct (links_mode_leaves_summaries_empty Examples.ascii_lower
              Examples.all_served (PyStr.py "Dog") (PyStr.py "links") 3
              (PyStr.py "") [] (PyStr.py "console") [])
    as [Happ _].
  - vm_compute. discriminate.
  - vm_compute. discriminate.
  - eexists _, _, _. split; [lazy; reflexivity|].
    eapply Happ. lazy. reflexivity.
Defined.

(** ** Summaries *)

Section Summaries.
Import PyStr Summarizer CleanShape.

Lemma split_sentences_nonempty (piece : pystr) (after_end in_gap : bool)
  (s : pystr) :
  split_sentences piece after_end in_gap s <> [].
Proof.
  revert piece after_end in_gap.
  induction s as [|c rest IH]; intros piece after_end in_gap; [discriminate|].
  cbn [split_sentences].
  destruct (isspace c && (in_gap || after_end)); [|apply IH].
  destruct in_gap; [apply IH|discriminate].
Qed.

Lemma join_cons (sep p : pystr) (rest : list pystr) :
  rest <> [] -> join sep (p :: rest) = p ++ sep ++ join sep rest.
Proof. destruct rest; [congruence|reflexivity]. Qed.

(** On text whose whitespace is single spaces between other characters,
    joining the pieces with a space gives the text back. *)
Lemma join_split_sentences (punct : bool) (p : pos) (s : pystr) :
  forall piece after_end in_gap,
    shaped punct false p s = true ->
    (in_gap = true -> p = AfterSpace) ->
    join (py " ") (split_sentences piece after_end in_gap s) = piece ++ s.
Proof.
  revert p. induction s as [|c rest IH];
    intros p piece after_end in_gap Hs Hgap.
  - cbn. now rewrite app_nil_r.
  - destruct (shaped_cons _ _ _ _ _ Hs) as [(Hc & -> & -> & Hr)|(Hc & _ & Hr)].
    + destruct in_gap; [specialize (Hgap eq_refl); discriminate|].
      cbn [split_sentences]. rewrite space_isspace. cbn [orb andb].
      destruct after_end.
      * rewrite join_cons by apply split_sentences_nonempty.
        rewrite (IH AfterSpace [] false true Hr (fun _ => eq_refl)).
        reflexivity.
      * rewrite (IH AfterSpace (piece ++ [SPACE]) _ false Hr);
          [|discriminate].
        now rewrite <- app_assoc.
    + cbn [split_sentences]. rewrite Hc. cbn [andb].
      rewrite (IH AfterChar (piece ++ [c]) _ false Hr); [|discriminate].
      now rewrite <- app_assoc.
Qed.

Lemma slice_to_firstn {A} (n : Z) (xs : list A) :
  exists k, slice_to n xs = firstn k xs.
Proof. unfold slice_to. destruct (0 <=? n)%Z; eexists; reflexivity. Qed.

Lemma slice_to_all {A} (n : Z) (xs : list A) :
  (Z.of_nat (length xs) <= n)%Z -> slice_to n xs = xs.
Proof.
  intros H. unfold slice_to.
  destruct (0 <=? n)%Z eqn:Hn; [|apply Z.leb_gt in Hn; lia].
  apply firstn_all2. lia.
Qed.

Lemma join_firstn (sep : pystr) (k : nat) (parts : list pystr) :
  exists rest,
    join sep parts = join sep (firstn k parts) ++ rest
    /\ (firstn k parts = [] \/ rest = [] \/ exists r, rest = sep ++ r).
Proof.
  revert k. induction parts as [|p parts IH]; intros k.
  - exists []. rewrite firstn_nil. split; [reflexivity|now left].
  - destruct k as [|k].
    + exists (join sep (p :: parts)). split; [reflexivity|now left].
    + cbn [firstn]. destruct parts as [|q parts].
      * exists []. rewrite firstn_nil. cbn. rewrite app_nil_r.
        split; [reflexivity|right; now left].
      * destruct k as [|k].
        -- exists (sep ++ join sep (q :: parts)). cbn [firstn].
           split; [reflexivity|right; right; now eexists].
        -- destruct (IH (S k)) as (rest & Hjoin & Hrest).
           exists rest. cbn [firstn] in *.
           rewrite (join_cons sep p (q :: parts)) by discriminate.
           rewrite (join_cons sep p (q :: firstn k parts)) by discriminate.
           rewrite Hjoin.
           split; [now rewrite <- !app_assoc|].
           destruct Hrest as [Hnil|Hrest]; [discriminate|now right].
Qed.

(** A piece of shaped text that ends where the text ends or where a space
    follows is shaped too. *)
Lemma shaped_prefix (punct : bool) (a rest : pystr) :
  forall p,
    shaped punct false p (a ++ rest) = true ->
    rest = [] \/ (exists r, rest = SPACE :: r) ->
    shaped punct false p a = true.
Proof.
  induction a as [|c a IH]; intros p Hs Hrest.
  - destruct p; try reflexivity.
    destruct Hrest as [->|[r ->]]; cbn in Hs; discriminate.
  - cbn [app] in Hs.
    destruct (shaped_cons _ _ _ _ _ Hs) as [(Hc & -> & -> & Hr)|(Hc & Hq & Hr)].
    + rewrite shaped_space. cbn [after_char andb]. now apply IH.
    + rewrite (shaped_char _ _ _ _ _ Hc), Hq. cbn [negb andb]. now apply IH.
Qed.

Lemma summarize_splits_cleaned (text : pystr) (max_sentences : Z) :
  exists rest,
    clean_text text = summarize text max_sentences ++ rest
    /\ (summarize text max_sentences = []
        \/ rest = [] \/ exists r, rest = SPACE :: r).
Proof.
  unfold summarize.
  destruct (slice_to_firstn max_sentences
              (split_sentences [] false false (clean_text text))) as [k ->].
  destruct (join_firstn (py " ") k
              (split_sentences [] false false (clean_text text)))
    as (rest & Hjoin & Hrest).
  rewrite (join_split_sentences true AtStart) in Hjoin;
    [|apply clean_text_neat|discriminate].
  exists rest. split; [exact Hjoin|].
  destruct Hrest as [->|[->|[r ->]]];
    [now left|right; now left|right; right; now exists r].
Qed.

(** X1: a summary is an initial part of the cleaned text, whatever the
    number of sentences asked for. *)
Theorem summarize_is_prefix_of_clean_text (text : pystr) (max_sentences : Z) :
  exists rest, clean_text text = summarize text max_sentences ++ rest.
Proof.
  destruct (summarize_splits_cleaned text max_sentences) as (rest & H & _).
  now exists rest.
Qed.

(** X2: when at least as many sentences are asked for as the cleaned text
    has, the summary is the cleaned text. *)
Theorem summarize_all_sentences (text : pystr) (max_sentences : Z) :
  (Z.of_nat (length (split_sentences [] false false (clean_text text)))
   <= max_sentences)%Z ->
  summarize text max_sentences = clean_text text.
Proof.
  intros H. unfold summarize. rewrite (slice_to_all _ _ H).
  apply (join_split_sentences true AtStart);
    [apply clean_text_neat|discriminate].
Qed.

(** X3: a summary is clean text: cleaning it again changes nothing. *)
Theorem clean_text_summarize (text : pystr) (max_sentences : Z) :
  clean_text (summarize text max_sentences) = summarize text max_sentences.
Proof.
  apply neat_clean_text.
  destruct (summarize_splits_cleaned text max_sentences)
    as (rest & Hsplit & Hrest).
  destruct Hrest as [->|Hrest]; [reflexivity|].
  apply (shaped_prefix true _ rest AtStart); [|exact Hrest].
  rewrite <- Hsplit. apply clean_text_neat.
Qed.

End Summaries.

Lemma summarize_all_sentences_witness :
  Summarizer.summarize (PyStr.py "One.  Two !  Three") 3
  = PyStr.py "One. Two! Three".
Proof.
  rewrite (summarize_all_sentences (PyStr.py "One.  Two !  Three") 3).
  - vm_compute. reflexivity.
  - vm_compute. discriminate.
Defined.

(** ** More on topic resolution *)

Section Lookups.
Import PyStr Soup Filter Scraper Examples.

Variable w : world.

(** [get_soup_for_topic] with the state threaded by hand: which answer of
    the network decides what, and the requests made on each path. *)
Lemma get_soup_for_topic_paths (topic : pystr) (log : list request) :
  let direct := build_wiki_url (replace_char SPACE UNDERSCORE topic) in
  let term := replace_char UNDERSCORE SPACE topic in
  let n := length log in
  get_soup_for_topic w topic log
  = match fetch w n direct with
    | Raises e => (Raises e, log ++ [GetPage direct])
    | Returns resp =>
        if (status_code resp =? 200)%Z
        then (Returns (parsed resp, replace_char SPACE UNDERSCORE topic),
              log ++ [GetPage direct])
        else
          match search w (S n) term with
          | Raises e =>
              (Raises e, log ++ [GetPage direct; GetSearch API_URL term])
          | Returns found =>
              if ((400 <=? search_status_code found)
                  && (search_status_code found <? 600))%Z
              then (Raises (HTTPError (search_status_code found)),
                    log ++ [GetPage direct; GetSearch API_URL term])
              else
                match hit_titles found with
                | [] | [] :: _ =>
                    (Raises (Exception (no_page_found topic)),
                     log ++ [GetPage direct; GetSearch API_URL term])
                | matched :: _ =>
                    let again :=
                      build_wiki_url
                        (replace_char SPACE UNDERSCORE matched) in
                    let log3 :=
                      log ++ [GetPage direct; GetSearch API_URL term;
                              GetPage again] in
                    match fetch w (S (S n)) again with
                    | Raises e => (Raises e, log3)
                    | Returns resp2 =>
                        if (status_code resp2 =? 200)%Z
                        then (Returns
                                (parsed resp2,
                                 replace_char SPACE UNDERSCORE matched),
                              log3)
                        else (Raises
                                (Exception
                                   (tried_but_got matched
                                      (status_code resp2))),
                              log3)
                    end
                end
          end
    end.
Proof.
  intros direct term n.
  assert (Hlen1 : length (log ++ [GetPage direct]) = S n).
  { rewrite length_app. simpl. lia. }
  assert (Hlen2 : length ((log ++ [GetPage direct])
                          ++ [GetSearch API_URL term]) = S (S n)).
  { rewrite length_app, Hlen1. simpl. lia. }
  unfold get_soup_for_topic, bind, requests_get, search_wikipedia, bind,
    requests_get_search, raise_for_status, raise, ret.
  fold direct term n.
  destruct (fetch w n direct) as [resp|e]; [|reflexivity].
  destruct (status_code resp =? 200)%Z; [reflexivity|].
  rewrite Hlen1.
  destruct (search w (S n) term) as [found|e];
    [|now rewrite <- app_assoc].
  destruct ((400 <=? search_status_code found)
            && (search_status_code found <? 600))%Z;
    [now rewrite <- app_assoc|].
  destruct (hit_titles found) as [|[|c matched] others];
    [now rewrite <- app_assoc|now rewrite <- app_assoc|].
  rewrite Hlen2. cbv zeta.
  destruct (fetch w (S (S n))
              (build_wiki_url (replace_char SPACE UNDERSCORE (c :: matched))))
    as [resp2|e]; [|now rewrite <- !app_assoc].
  destruct (status_code resp2 =? 200)%Z; cbn [negb];
    now rewrite <- !app_assoc.
Qed.

(** X4: a lookup makes between one and three requests, appended to the
    log in the order direct fetch, search, fetch of the first hit at the
    address built from its sanitized title; the search is made exactly
    when the direct fetch was answered with a status other than 200. *)
Theorem get_soup_for_topic_requests (topic : pystr) (log : list request) :
  let direct := build_wiki_url (replace_char SPACE UNDERSCORE topic) in
  let term := replace_char UNDERSCORE SPACE topic in
  exists more,
    snd (get_soup_for_topic w topic log) = log ++ GetPage direct :: more
    /\ (more = [] \/ more = [GetSearch API_URL term]
        \/ exists found matched others,
             search w (S (length log)) term = Returns found
             /\ hit_titles found = matched :: others
             /\ matched <> []
             /\ more
                = [ GetSearch API_URL term;
                    GetPage
                      (build_wiki_url
                         (replace_char SPACE UNDERSCORE matched)) ])
    /\ (more <> [] <->
        exists resp,
          fetch w (length log) direct = Returns resp
          /\ status_code resp <> 200%Z).
Proof.
  intros direct term. rewrite get_soup_for_topic_paths. cbv zeta.
  fold direct term.
  destruct (fetch w (length log) direct) as [resp|e] eqn:Hfetch.
  - destruct (status_code resp =? 200)%Z eqn:Hstatus.
    + exists []. split; [reflexivity|]. split; [now left|].
      split; [congruence|]. intros (resp' & [= <-] & Hne).
      apply Z.eqb_eq in Hstatus. contradiction.
    + assert (Hyes : exists resp',
                 Returns resp = Returns resp'
                 /\ status_code resp' <> 200%Z).
      { exists resp. split; [reflexivity|]. now apply Z.eqb_neq. }
      destruct (search w (S (length log)) term) as [found|e] eqn:Hsearch.
      * destruct ((400 <=? search_status_code found)
                  && (search_status_code found <? 600))%Z.
        { eexists. split; [reflexivity|]. split; [right; now left|].
          split; [intros _; exact Hyes|discriminate]. }
        destruct (hit_titles found) as [|[|c matched] others] eqn:Hhits.
        { eexists. split; [reflexivity|]. split; [right; now left|].
          split; [intros _; exact Hyes|discriminate]. }
        { eexists. split; [reflexivity|]. split; [right; now left|].
          split; [intros _; exact Hyes|discriminate]. }
        exists [ GetSearch API_URL term;
                 GetPage
                   (build_wiki_url
                      (replace_char SPACE UNDERSCORE (c :: matched))) ].
        split.
        { destruct (fetch w (S (S (length log))) _) as [resp2|e2];
            [destruct (status_code resp2 =? 200)%Z|]; reflexivity. }
        split; [|split; [intros _; exact Hyes|discriminate]].
        right. right. exists found, (c :: matched), others.
        split; [reflexivity|]. split; [exact Hhits|].
        split; [discriminate|reflexivity].
      * eexists. split; [reflexivity|]. split; [right; now left|].
        split; [intros _; exact Hyes|discriminate].
  - exists []. split; [reflexivity|]. split; [now left|].
    split; [congruence|]. intros (resp' & Hr & _). discriminate.
Qed.

(** X5: what a successful lookup returns is the document that the last
    request of the lookup, a fetch of the address built from the returned
    title, was answered with under status 200; the returned title has no
    space. *)
Theorem resolved_page_is_served (topic : pystr) (log log' : list request)
  (page : soup) (actual : pystr) :
  get_soup_for_topic w topic log = (Returns (page, actual), log') ->
  ~ In SPACE actual
  /\ exists before resp,
       log' = before ++ [GetPage (build_wiki_url actual)]
       /\ fetch w (length before) (build_wiki_url actual) = Returns resp
       /\ status_code resp = 200%Z
       /\ parsed resp = page.
Proof.
  assert (Hnospace : forall s, ~ In SPACE (replace_char SPACE UNDERSCORE s)).
  { intros s. unfold replace_char. rewrite in_map_iff.
    intros (c & Hc & _). unfold char_eqb in Hc.
    destruct (c =? SPACE) eqn:E; [discriminate|].
    apply N.eqb_neq in E. congruence. }
  rewrite get_soup_for_topic_paths. cbv zeta.
  destruct (fetch w (length log) _) as [resp|e] eqn:Hfetch; [|discriminate].
  destruct (status_code resp =? 200)%Z eqn:Hstatus.
  - intros [= <- <- <-]. split; [apply Hnospace|].
    exists log, resp. apply Z.eqb_eq in Hstatus. auto.
  - destruct (search w _ _) as [found|e]; [|discriminate].
    destruct (_ && _)%Z; [discriminate|].
    destruct (hit_titles found) as [|[|c matched] others];
      [discriminate|discriminate|].
    destruct (fetch w (S (S (length log))) _) as [resp2|e2] eqn:Hretry;
      [|discriminate].
    destruct (status_code resp2 =? 200)%Z eqn:Hstatus2; [|discriminate].
    intros [= <- <- <-]. split; [exact (Hnospace (c :: matched))|].
    eexists (log ++ [_; _]), resp2.
    split; [now rewrite <- app_assoc|].
    rewrite length_app. cbn [length].
    replace (length log + 2)%nat with (S (S (length log))) by lia.
    apply Z.eqb_eq in Hstatus2. auto.
Qed.

Lemma replace_char_swap (a b : pystr) :
  replace_char SPACE UNDERSCORE a = replace_char SPACE UNDERSCORE b ->
  replace_char UNDERSCORE SPACE a = replace_char UNDERSCORE SPACE b.
Proof.
  revert b. induction a as [|x a IH]; intros [|y b] H; try discriminate;
    [reflexivity|].
  cbn [replace_char List.map] in *. injection H as Hxy Hab.
  f_equal; [|now apply IH].
  unfold char_eqb, SPACE, UNDERSCORE in *.
  destruct (x =? 32) eqn:Hx; destruct (y =? 32) eqn:Hy;
    destruct (x =? 95) eqn:Hx'; destruct (y =? 95) eqn:Hy';
    rewrite ?N.eqb_eq, ?N.eqb_neq in *; subst; try reflexivity;
    try congruence; try discriminate.
Qed.

Lemma replace_char_back (s : pystr) :
  ~ In UNDERSCORE s ->
  replace_char UNDERSCORE SPACE (replace_char SPACE UNDERSCORE s) = s.
Proof.
  induction s as [|c s IH]; intros Hs; [reflexivity|].
  cbn [replace_char List.map]. f_equal.
  - unfold char_eqb. destruct (c =? SPACE) eqn:Hc.
    + apply N.eqb_eq in Hc. now subst c.
    + destruct (c =? UNDERSCORE) eqn:Hu; [|reflexivity].
      apply N.eqb_eq in Hu. subst c. exfalso. apply Hs. now left.
  - apply IH. intros Hin. apply Hs. now right.
Qed.

(** X6: when the direct fetch is answered with a status other than 200
    and the page of the first search hit is served, the lookup returns
    that page under the hit's title with underscores for spaces, after
    three requests; read with spaces for underscores, as [app.py] shows
    it, that title is the hit's title when this has no underscore. *)
Theorem fallback_returns_the_first_hit
  (topic : pystr) (log : list request) (resp : page_response)
  (found : search_response) (matched : pystr) (others : list pystr)
  (resp2 : page_response) :
  let direct := build_wiki_url (replace_char SPACE UNDERSCORE topic) in
  let term := replace_char UNDERSCORE SPACE topic in
  let again := build_wiki_url (replace_char SPACE UNDERSCORE matched) in
  fetch w (length log) direct = Returns resp ->
  status_code resp <> 200%Z ->
  search w (S (length log)) term = Returns found ->
  ((400 <=? search_status_code found)
   && (search_status_code found <? 600))%Z = false ->
  hit_titles found = matched :: others ->
  matched <> [] ->
  fetch w (S (S (length log))) again = Returns resp2 ->
  status_code resp2 = 200%Z ->
  get_soup_for_topic w topic log
  = (Returns (parsed resp2, replace_char SPACE UNDERSCORE matched),
     log ++ [GetPage direct; GetSearch API_URL term; GetPage again])
  /\ (~ In UNDERSCORE matched ->
      replace_char UNDERSCORE SPACE (replace_char SPACE UNDERSCORE matched)
      = matched).
Proof.
  intros direct term again Hfetch Hstatus Hsearch Hcode Hhits Hne Hretry
    Hstatus2.
  split; [|apply replace_char_back].
  rewrite get_soup_for_topic_paths. cbv zeta. fold direct term.
  rewrite Hfetch. apply Z.eqb_neq in Hstatus. rewrite Hstatus.
  rewrite Hsearch, Hcode, Hhits.
  destruct matched as [|c matched]; [congruence|].
  fold again. rewrite Hretry, Hstatus2. reflexivity.
Qed.

(** X7: spaces and underscores are interchangeable in a topic: two topics
    with the same sanitized form make the same requests and come to the
    same outcome, except that the exception for a search without hits
    names each topic as it was given. *)
Theorem topics_with_one_sanitized_form
  (topic1 topic2 : pystr) (log : list request) :
  replace_char SPACE UNDERSCORE topic1 = replace_char SPACE UNDERSCORE topic2 ->
  snd (get_soup_for_topic w topic1 log) = snd (get_soup_for_topic w topic2 log)
  /\ (fst (get_soup_for_topic w topic1 log)
      = fst (get_soup_for_topic w topic2 log)
      \/ (fst (get_soup_for_topic w topic1 log)
          = Raises (Exception (no_page_found topic1))
          /\ fst (get_soup_for_topic w topic2 log)
             = Raises (Exception (no_page_found topic2)))).
Proof.
  intros Hsame. pose proof (replace_char_swap _ _ Hsame) as Hterm.
  rewrite !get_soup_for_topic_paths. cbv zeta. rewrite Hsame, Hterm.
  destruct (fetch w (length log) _) as [resp|e]; [|split; [|left]; reflexivity].
  destruct (status_code resp =? 200)%Z; [split; [|left]; reflexivity|].
  destruct (search w _ _) as [found|e]; [|split; [|left]; reflexivity].
  destruct (_ && _)%Z; [split; [|left]; reflexivity|].
  destruct (hit_titles found) as [|[|c matched] others];
    [split; [reflexivity|right; split; reflexivity]
    |split; [reflexivity|right; split; reflexivity]|].
  destruct (fetch w (S (S (length log))) _) as [resp2|e2];
    [|split; [|left]; reflexivity].
  destruct (status_code resp2 =? 200)%Z; split; try left; reflexivity.
Qed.

Lemma after_last_none (sep s : pystr) :
  contains sep s = false -> after_last sep s = None.
Proof.
  induction s as [|c s IH]; intros H; [reflexivity|].
  cbn [contains] in H. apply orb_false_iff in H. destruct H as [Hhere Hlater].
  cbn [after_last]. now rewrite (IH Hlater), Hhere.
Qed.

(** X8: the topic that the pipelines take from a link is the topic the
    link was built from, as long as no [/wiki/] begins in the topic or at
    the slash before it. *)
Theorem subtopic_of_built_url (topic : pystr) :
  contains (py "/wiki/") (py "/" ++ topic) = false ->
  rsplit1_last (py "/wiki/") (build_wiki_url topic) = topic.
Proof.
  intros H.
  assert (Hslash : startswith (py "/wiki/") (47 :: topic) = false
                   /\ after_last (py "/wiki/") topic = None).
  { change (py "/" ++ topic) with (47 :: topic) in H.
    cbn [contains] in H. apply orb_false_iff in H. destruct H as [H1 H2].
    split; [exact H1|now apply after_last_none]. }
  destruct Hslash as [Hslash Hnone].
  unfold rsplit1_last, build_wiki_url.
  change (py "https://en.wikipedia.org/wiki/" ++ topic)
    with (py "https://en.wikipedia.org" ++ py "/wiki" ++ 47 :: topic).
  assert (Hat : after_last (py "/wiki/") (py "/wiki" ++ 47 :: topic)
                = Some topic).
  { change (py "/wiki" ++ 47 :: topic)
      with (47 :: 119 :: 105 :: 107 :: 105 :: 47 :: topic).
    cbn [after_last]. rewrite Hnone, Hslash. reflexivity. }
  change (py "https://en.wikipedia.org")
    with [104; 116; 116; 112; 115; 58; 47; 47; 101; 110; 46; 119; 105; 107;
          105; 112; 101; 100; 105; 97; 46; 111; 114; 103].
  cbn [app after_last]. rewrite Hat. reflexivity.
Qed.

End Lookups.

(** ** Extracted text *)

Section ExtractedText.
Import PyStr Soup Scraper.

Lemma rstrip_head (s r : pystr) (c : char) :
  rstrip s = c :: r -> exists s', s = c :: s'.
Proof.
  destruct s as [|d s]; [discriminate|]. cbn [rstrip].
  destruct (rstrip s); [destruct (isspace d)|];
    intros [= <- _]; now eexists.
Qed.

Lemma rstrip_rstrip (s : pystr) : rstrip (rstrip s) = rstrip s.
Proof.
  induction s as [|c s IH]; [reflexivity|]. cbn [rstrip].
  destruct (rstrip s) as [|d r] eqn:E.
  - destruct (isspace c) eqn:Hc; [reflexivity|]. cbn. now rewrite Hc.
  - cbn [rstrip]. cbn [rstrip] in IH. now rewrite IH.
Qed.

Lemma rstrip_app (a b : pystr) :
  rstrip b <> [] -> rstrip (a ++ b) = a ++ rstrip b.
Proof.
  intros Hb. induction a as [|c a IH]; [reflexivity|].
  cbn [app rstrip]. rewrite IH.
  destruct (a ++ rstrip b) eqn:E; [|reflexivity].
  apply app_eq_nil in E. destruct E. contradiction.
Qed.

Lemma lstrip_head (s r : pystr) (c : char) :
  lstrip s = c :: r -> isspace c = false.
Proof.
  induction s as [|d s IH]; [discriminate|]. cbn [lstrip].
  destruct (isspace d) eqn:Hd; [exact IH|]. now intros [= <- _].
Qed.

Lemma strip_strip (s : pystr) : strip (strip s) = strip s.
Proof.
  unfold strip. destruct (rstrip (lstrip s)) as [|c r] eqn:E; [reflexivity|].
  destruct (rstrip_head _ _ _ E) as [s' Hs'].
  cbn [lstrip]. rewrite (lstrip_head _ _ _ Hs').
  rewrite <- E. apply rstrip_rstrip.
Qed.

(** A trimmed text that is not empty begins and ends with characters that
    are not whitespace. *)
Lemma strip_fixed (s : pystr) (c : char) (r : pystr) :
  strip s = s -> s = c :: r -> isspace c = false /\ rstrip s = s.
Proof.
  intros Hs ->. unfold strip in Hs.
  destruct (rstrip_head _ _ _ Hs) as [s' Hs'].
  pose proof (lstrip_head _ _ _ Hs') as Hc. split; [exact Hc|].
  cbn [lstrip] in Hs. now rewrite Hc in Hs.
Qed.

Lemma join_trimmed (sep : pystr) (parts : list pystr) :
  Forall (fun p => p <> [] /\ strip p = p) parts ->
  strip (join sep parts) = join sep parts
  /\ (parts <> [] -> join sep parts <> []).
Proof.
  induction 1 as [|p parts [Hne Hp] Hparts [IH IHne]].
  - split; [reflexivity|intros Hnil; now contradiction Hnil].
  - destruct parts as [|q parts].
    + split; [exact Hp|intros _; exact Hne].
    + destruct p as [|c p]; [congruence|].
      destruct (strip_fixed _ c p Hp eq_refl) as [Hc _].
      assert (Hq : join sep (q :: parts) <> []) by (apply IHne; discriminate).
      destruct (join sep (q :: parts)) as [|d j] eqn:Ej; [congruence|].
      destruct (strip_fixed _ d j IH eq_refl) as [_ Hj].
      change (join sep ((c :: p) :: q :: parts))
        with ((c :: p) ++ sep ++ join sep (q :: parts)).
      rewrite Ej. split; [|discriminate].
      unfold strip. cbn [app lstrip]. rewrite Hc.
      change (c :: p ++ sep ++ d :: j) with ((c :: p) ++ sep ++ d :: j).
      assert (Htail : rstrip (sep ++ d :: j) = sep ++ d :: j).
      { rewrite rstrip_app; rewrite Hj; [reflexivity|discriminate]. }
      rewrite rstrip_app; rewrite Htail; [reflexivity|].
      intros E. apply app_eq_nil in E. destruct E. discriminate.
Qed.

Lemma get_text_strip_trimmed (sep : pystr) (t : tag) :
  strip (get_text_strip sep t) = get_text_strip sep t.
Proof.
  unfold get_text_strip. apply join_trimmed.
  apply List.Forall_forall. intros p Hp. apply filter_In in Hp.
  destruct Hp as [Hin Hp]. split; [now destruct p|].
  apply in_map_iff in Hin. destruct Hin as (x & <- & _). apply strip_strip.
Qed.

Lemma get_first_paragraph_trimmed (s : soup) :
  strip (get_first_paragraph s) = get_first_paragraph s.
Proof.
  unfold get_first_paragraph.
  induction (select content_paragraphs s) as [|p rest IH]; [reflexivity|].
  cbn [first_substantial].
  destruct (truthy _ && _); [apply get_text_strip_trimmed|exact IH].
Qed.

Lemma get_categories_trimmed (s : soup) :
  Forall (fun c => strip c = c) (get_categories s).
Proof.
  unfold get_categories. destruct (select_one catlinks_list s); [|constructor].
  apply List.Forall_forall. intros c Hc. apply in_map_iff in Hc.
  destruct Hc as (li & <- & _). apply get_text_strip_trimmed.
Qed.

(** X9: the text that [get_first_paragraph] returns and every category
    that [get_categories] returns are trimmed: stripping them changes
    nothing. *)
Theorem extracted_text_is_trimmed (s : soup) :
  strip (get_first_paragraph s) = get_first_paragraph s
  /\ Forall (fun c => strip c = c) (get_categories s).
Proof.
  split; [apply get_first_paragraph_trimmed|apply get_categories_trimmed].
Qed.

(** X10: [get_first_paragraph] returns the text of the first paragraph of
    the content that has more than 15 words; it returns the empty string
    exactly when no paragraph has. *)
Theorem get_first_paragraph_is_first_long (s : soup) :
  let texts :=
    List.map (get_text_strip (py " ")) (select content_paragraphs s) in
  (get_first_paragraph s = []
   /\ Forall (fun text => (length (split text) <= 15)%nat) texts)
  \/ (exists before after,
        texts = before ++ get_first_paragraph s :: after
        /\ (15 < length (split (get_first_paragraph s)))%nat
        /\ Forall (fun text => (length (split text) <= 15)%nat) before).
Proof.
  cbv zeta. unfold get_first_paragraph.
  induction (select content_paragraphs s) as [|p rest IH].
  - left. split; [reflexivity|constructor].
  - cbn [first_substantial List.map].
    destruct (15 <? length (split (get_text_strip (py " ") p)))%nat eqn:Hlong.
    + apply Nat.ltb_lt in Hlong.
      assert (Htext : truthy (get_text_strip (py " ") p) = true).
      { destruct (get_text_strip (py " ") p); [cbn in Hlong; lia|reflexivity]. }
      rewrite Htext. cbn [andb]. right. exists [], (List.map (get_text_strip (py " ")) rest).
      split; [reflexivity|]. split; [exact Hlong|constructor].
    + rewrite andb_false_r. apply Nat.ltb_ge in Hlong.
      destruct IH as [[Hnone Hall]|(before & after & Htexts & Hlen & Hbefore)].
      * left. split; [exact Hnone|]. now constructor.
      * right. exists (get_text_strip (py " ") p :: before), after.
        split; [cbn [app]; now rewrite <- Htexts|].
        split; [exact Hlen|]. now constructor.
Qed.

(** The strings of a style sheet and of a comment inside a paragraph do
    not count as its text. *)
Example get_first_paragraph_skips_style :
  get_first_paragraph Examples.styled_page
  = py "v0 v1 v2 v3 v4 v5 v6 v7 v8 v9 v10 v11 v12 v13 v14 v15".
Proof. vm_compute. reflexivity. Qed.

End ExtractedText.

(** ** How keyword filters compose *)

Section FilterAlgebra.
Import PyStr Filter Examples.

Variable lower : pystr -> pystr.

Lemma filter_filter_same {A} (f : A -> bool) (l : list A) :
  List.filter f (List.filter f l) = List.filter f l.
Proof.
  induction l as [|x l IH]; [reflexivity|]. cbn [List.filter].
  destruct (f x) eqn:Hx; [|exact IH]. cbn [List.filter]. now rewrite Hx, IH.
Qed.

Lemma filter_filter_and {A} (f g : A -> bool) (l : list A) :
  List.filter g (List.filter f l) = List.filter (fun x => f x && g x) l.
Proof.
  induction l as [|x l IH]; [reflexivity|]. cbn [List.filter].
  destruct (f x); cbn [List.filter andb]; [|exact IH].
  destruct (g x); now rewrite IH.
Qed.

(** X11: in every mode the filter treats each item on its own: what it
    keeps is a subsequence of the input, filtering a concatenation is
    concatenating the filtered parts, and filtering again with the same
    keywords and mode changes nothing. *)
Theorem filter_by_keyword_itemwise
  (items more : list item) (keywords : list pystr) (mode : pystr) :
  sublist (filter_by_keyword lower items keywords mode) items
  /\ filter_by_keyword lower (items ++ more) keywords mode
     = filter_by_keyword lower items keywords mode
       ++ filter_by_keyword lower more keywords mode
  /\ filter_by_keyword lower
       (filter_by_keyword lower items keywords mode) keywords mode
     = filter_by_keyword lower items keywords mode.
Proof.
  unfold filter_by_keyword. split; [apply filter_sublist|].
  split; [apply List.filter_app|apply filter_filter_same].
Qed.

(** X12: in mode ['and'], filtering by two keyword lists one after the
    other is filtering by their concatenation. *)
Theorem filter_and_composes (items : list item) (first second : list pystr) :
  filter_by_keyword lower
    (filter_by_keyword lower items first (py "and")) second (py "and")
  = filter_by_keyword lower items (first ++ second) (py "and").
Proof.
  unfold filter_by_keyword. rewrite filter_filter_and.
  apply List.filter_ext. intros it. unfold matches.
  change (str_eqb (py "and") (py "and")) with true. cbv iota.
  now rewrite forallb_app.
Qed.

(** X13: in mode ['or'], an item is kept for a concatenation of two
    keyword lists exactly when it is kept for one of them. *)
Theorem filter_or_unites (items : list item) (first second : list pystr)
  (it : item) :
  In it (filter_by_keyword lower items (first ++ second) (py "or"))
  <-> In it (filter_by_keyword lower items first (py "or"))
      \/ In it (filter_by_keyword lower items second (py "or")).
Proof.
  unfold filter_by_keyword. rewrite !filter_In. unfold matches.
  change (str_eqb (py "or") (py "and")) with false. cbv iota.
  rewrite existsb_app, orb_true_iff. tauto.
Qed.

(** X14: the empty string is a keyword that every item matches: when
    lower-casing leaves the empty string empty, a keyword list that holds
    it keeps every item in mode ['or']. *)
Theorem empty_keyword_matches_all (items : list item) (keywords : list pystr) :
  lower [] = [] ->
  In [] keywords ->
  filter_by_keyword lower items keywords (py "or") = items.
Proof.
  intros Hlower Hin. unfold filter_by_keyword.
  induction items as [|it items IH]; [reflexivity|].
  cbn [List.filter]. rewrite IH.
  replace (matches lower keywords (py "or") it) with true; [reflexivity|].
  symmetry. unfold matches.
  change (str_eqb (py "or") (py "and")) with false. cbv iota.
  apply existsb_exists. exists []. split; [exact Hin|].
  rewrite Hlower. now destruct (text_blob lower it).
Qed.

End FilterAlgebra.

Lemma empty_keyword_matches_all_witness :
  Filter.filter_by_keyword Examples.ascii_lower
    [Examples.climate_change; Examples.political_science]
    [PyStr.py "zebra"; PyStr.py ""] (PyStr.py "or")
  = [Examples.climate_change; Examples.political_science].
Proof.
  apply (empty_keyword_matches_all Examples.ascii_lower).
  - reflexivity.
  - right. now left.
Defined.

(** ** More on the two pipelines *)

Section Runs.
Import PyStr Soup Filter Scraper Summarizer RelatedLinks LinkSpec Examples.

Variable lower : pystr -> pystr.
Variable w : world.

Lemma get_soup_for_topic_log (topic : pystr) (log : list request) :
  exists new,
    snd (get_soup_for_topic w topic log) = log ++ new
    /\ (1 <= length new <= 3)%nat.
Proof.
  rewrite get_soup_for_topic_paths. cbv zeta.
  destruct (fetch w (length log) _) as [resp|e];
    [destruct (status_code resp =? 200)%Z;
     [|destruct (search w _ _) as [found|e];
       [destruct (_ && _)%Z;
        [|destruct (hit_titles found) as [|[|c matched] others];
          [| |destruct (fetch w (S (S (length log))) _) as [resp2|e2];
              [destruct (status_code resp2 =? 200)%Z|]]]|]]|];
    cbn [snd]; eexists; (split; [reflexivity|cbn [length]; lia]).
Qed.

Lemma collect_log (build : pystr -> pystr -> soup -> item)
  (links : list pystr) :
  forall acc log,
  exists new,
    snd (collect w build acc links log) = log ++ new
    /\ (length new <= 3 * length links)%nat.
Proof.
  induction links as [|u rest IH]; intros acc log.
  - exists []. cbn. now rewrite app_nil_r.
  - destruct (get_soup_for_topic_log (rsplit1_last (py "/wiki/") u) log)
      as (new1 & Hlog1 & Hlen1).
    destruct (get_soup_for_topic w (rsplit1_last (py "/wiki/") u) log)
      as [[[page actual]|e] log1] eqn:Hget; cbn [snd] in Hlog1; subst log1.
    + rewrite (collect_loaded _ _ _ _ _ _ _ _ _ Hget).
      destruct (IH (acc ++ [build (rsplit1_last (py "/wiki/") u) u page])
                  (log ++ new1)) as (new2 & Hlog2 & Hlen2).
      exists (new1 ++ new2). rewrite Hlog2, <- app_assoc.
      split; [reflexivity|]. rewrite length_app. cbn [length]. lia.
    + rewrite (collect_failed _ _ _ _ _ _ _ _ Hget).
      destruct (IH acc (log ++ new1)) as (new2 & Hlog2 & Hlen2).
      exists (new1 ++ new2). rewrite Hlog2, <- app_assoc.
      split; [reflexivity|]. rewrite length_app. cbn [length]. lia.
Qed.

Lemma slice_to_length_nonneg {A} (n : Z) (xs : list A) :
  (0 <= n)%Z -> (length (slice_to n xs) <= Z.to_nat n)%nat.
Proof.
  intros H. rewrite (slice_to_nonneg _ _ H), length_firstn. lia.
Qed.

(** X15: a run with a limit L that is not negative makes at least one
    and at most 3 (L + 1) requests, all appended to the log: up to three
    for the main topic and up to three for each related link. *)
Theorem run_request_budget
  (topic mode : pystr) (limit : Z) (keywords_field : pystr)
  (keywords : list pystr) (output : pystr) (log : list request) :
  (0 <= limit)%Z ->
  (exists new,
      snd (App.index lower w
             {| App.form_topic := topic; App.form_mode := mode;
                App.form_limit := limit;
                App.form_keywords := keywords_field |} log)
      = log ++ new
      /\ (1 <= length new <= 3 * (Z.to_nat limit + 1))%nat)
  /\ (exists new,
        snd (Cli.main lower w
               {| Cli.topic := topic; Cli.mode := mode; Cli.limit := limit;
                  Cli.keywords := keywords; Cli.output := output |} log)
        = log ++ new
        /\ (1 <= length new <= 3 * (Z.to_nat limit + 1))%nat).
Proof.
  intros Hlimit.
  destruct (get_soup_for_topic_log topic log) as (new1 & Hlog1 & Hlen1).
  destruct (get_soup_for_topic w topic log) as [[[page actual]|e] log1]
    eqn:Hmain; cbn [snd] in Hlog1; subst log1.
  - pose proof (slice_to_length_nonneg limit (find_internal_links page)
                  Hlimit) as Hslice.
    split.
    + destruct (collect_log (App.related_item mode)
                  (slice_to limit (find_internal_links page)) []
                  (log ++ new1)) as (new2 & Hlog2 & Hlen2).
      destruct (collect w (App.related_item mode) []
                  (slice_to limit (find_internal_links page)) (log ++ new1))
        as [[related|e] log2] eqn:Hloop.
      * rewrite <- related_loop_collect in Hloop.
        rewrite (index_main_resolves lower w
                   {| App.form_topic := topic; App.form_mode := mode;
                      App.form_limit := limit;
                      App.form_keywords := keywords_field |}
                   log _ _ page actual related Hmain Hloop).
        cbn [snd] in *. subst log2. exists (new1 ++ new2).
        rewrite <- app_assoc. split; [reflexivity|].
        rewrite length_app. lia.
      * destruct (collect_returns w (App.related_item mode) (fun _ => True)
                    (slice_to limit (find_internal_links page))
                    (fun _ _ _ => I) [] (log ++ new1))
          as (added & log' & Hrun & _).
        rewrite Hrun in Hloop. discriminate.
    + destruct (collect_log (Cli.result_item mode)
                  (slice_to limit (find_internal_links page)) []
                  (log ++ new1)) as (new2 & Hlog2 & Hlen2).
      destruct (collect w (Cli.result_item mode) []
                  (slice_to limit (find_internal_links page)) (log ++ new1))
        as [[results|e] log2] eqn:Hloop.
      * rewrite <- results_loop_collect in Hloop.
        rewrite (main_lookup_resolves lower w
                   {| Cli.topic := topic; Cli.mode := mode;
                      Cli.limit := limit; Cli.keywords := keywords;
                      Cli.output := output |}
                   log _ _ page actual results Hmain Hloop).
        cbn [snd] in *. subst log2. exists (new1 ++ new2).
        rewrite <- app_assoc. split; [reflexivity|].
        rewrite length_app. lia.
      * destruct (collect_returns w (Cli.result_item mode) (fun _ => True)
                    (slice_to limit (find_internal_links page))
                    (fun _ _ _ => I) [] (log ++ new1))
          as (added & log' & Hrun & _).
        rewrite Hrun in Hloop. discriminate.
  - split.
    + exists new1. unfold App.index, try_except. cbn [App.form_topic].
      rewrite Hmain. cbn [snd ret]. split; [reflexivity|lia].
    + exists new1. unfold Cli.main, try_except. cbn [Cli.topic].
      rewrite Hmain. cbn [snd ret]. split; [reflexivity|lia].
Qed.

(** X16: mode [filtered] without keywords is mode [summaries]: the web
    pipeline renders the same page but for the mode it reports, and the
    command-line pipeline finishes in the same way. *)
Theorem filtered_without_keywords_is_summaries
  (topic : pystr) (limit : Z) (keywords_field : pystr) (output : pystr)
  (log : list request) :
  split keywords_field = [] ->
  App.index lower w
    {| App.form_topic := topic; App.form_mode := py "filtered";
       App.form_limit := limit; App.form_keywords := keywords_field |} log
  = match App.index lower w
            {| App.form_topic := topic; App.form_mode := py "summaries";
               App.form_limit := limit;
               App.form_keywords := keywords_field |} log
    with
    | (Returns (App.results_html original main related _ kws lim), log') =>
        (Returns
           (App.results_html original main related (py "filtered") kws lim),
         log')
    | failed => failed
    end
  /\ Cli.main lower w
       {| Cli.topic := topic; Cli.mode := py "filtered"; Cli.limit := limit;
          Cli.keywords := []; Cli.output := output |} log
     = Cli.main lower w
         {| Cli.topic := topic; Cli.mode := py "summaries";
            Cli.limit := limit; Cli.keywords := []; Cli.output := output |}
         log.
Proof.
  intros Hnone.
  destruct (get_soup_for_topic w topic log) as [[[page actual]|e] log1]
    eqn:Hmain.
  - split.
    + destruct (related_loop_returns w (fun _ => True) (py "summaries")
                  (slice_to limit (find_internal_links page)) [] log1
                  (fun _ _ _ => I))
        as (related & log2 & Hloop & _).
      cbn [app] in Hloop.
      rewrite (index_main_resolves lower w
                 {| App.form_topic := topic; App.form_mode := py "summaries";
                    App.form_limit := limit;
                    App.form_keywords := keywords_field |}
                 log log1 log2 page actual related Hmain Hloop).
      rewrite <- related_loop_filtered in Hloop.
      rewrite (index_main_resolves lower w
                 {| App.form_topic := topic; App.form_mode := py "filtered";
                    App.form_limit := limit;
                    App.form_keywords := keywords_field |}
                 log log1 log2 page actual related Hmain Hloop).
      cbn [App.form_topic App.form_mode App.form_limit App.form_keywords].
      unfold filter_step. rewrite Hnone. cbn [truthy].
      rewrite !andb_false_r. reflexivity.
    + destruct (results_loop_returns w (fun _ => True) (py "summaries")
                  (slice_to limit (find_internal_links page)) [] log1
                  (fun _ _ _ => I))
        as (results & log2 & Hloop & _).
      cbn [app] in Hloop.
      rewrite (main_lookup_resolves lower w
                 {| Cli.topic := topic; Cli.mode := py "summaries";
                    Cli.limit := limit; Cli.keywords := [];
                    Cli.output := output |}
                 log log1 log2 page actual results Hmain Hloop).
      rewrite <- results_loop_filtered in Hloop.
      rewrite (main_lookup_resolves lower w
                 {| Cli.topic := topic; Cli.mode := py "filtered";
                    Cli.limit := limit; Cli.keywords := [];
                    Cli.output := output |}
                 log log1 log2 page actual results Hmain Hloop).
      cbn [Cli.topic Cli.mode Cli.limit Cli.keywords Cli.output].
      unfold filter_step. cbn [truthy]. rewrite !andb_false_r. reflexivity.
  - split.
    + unfold App.index, try_except. cbn [App.form_topic].
      rewrite Hmain. reflexivity.
    + unfold Cli.main, try_except. cbn [Cli.topic].
      rewrite Hmain. reflexivity.
Qed.



Lemma clean_text_clean_text (x : pystr) :
  clean_text (clean_text x) = clean_text x.
Proof. apply neat_clean_text, clean_text_neat. Qed.

Lemma Forall_filter_step {P : item -> Prop} (mode : pystr)
  (keywords : list pystr) (items : list item) :
  Forall P items -> Forall P (filter_step lower mode keywords items).
Proof.
  intros H. unfold filter_step.
  destruct (str_eqb mode (py "filtered") && truthy keywords); [|exact H].
  unfold filter_by_keyword_default, filter_by_keyword.
  apply List.Forall_forall. intros it Hit. apply filter_In in Hit.
  rewrite List.Forall_forall in H. now apply H.
Qed.

(** X18: in every mode, every article of a result has normalised text:
    its excerpt is a fixed point of [clean_text] and each of its
    categories is trimmed. *)
Theorem results_have_normalised_text (f : App.form) (a : Cli.args)
  (log : list request) :
  let normalised (it : item) :=
    (exists e, excerpt it = Some e /\ clean_text e = e)
    /\ (exists cs, categories it = Some cs
                   /\ Forall (fun c => strip c = c) cs) in
  match fst (App.index lower w f log) with
  | Returns (App.results_html _ main related _ _ _) =>
      Forall normalised (main :: related)
  | _ => True
  end
  /\ match fst (Cli.main lower w a log) with
     | Returns (Cli.sent _ _ results) => Forall normalised results
     | _ => True
     end.
Proof.
  intros normalised.
  assert (Hfull : forall t u page,
             normalised
               {| title := t; url := u;
                  excerpt := Some (clean_text (get_first_paragraph page));
                  categories := Some (get_categories page) |}).
  { intros t u page. split; eexists; (split; [reflexivity|]).
    - apply clean_text_clean_text.
    - apply get_categories_trimmed. }
  assert (Happ : forall mode subtopic url page,
             normalised (App.related_item mode subtopic url page)).
  { intros mode subtopic url page. unfold App.related_item.
    destruct (App.wants_summaries mode); [apply Hfull|].
    split; [exists []|exists []]; split; try reflexivity. constructor. }
  assert (Hcli : forall mode subtopic url page,
             normalised (Cli.result_item mode subtopic url page)).
  { intros mode subtopic url page. unfold Cli.result_item.
    split; eexists; (split; [reflexivity|]).
    - destruct (Cli.wants_summaries mode);
        [apply clean_text_clean_text|reflexivity].
    - apply get_categories_trimmed. }
  split.
  - destruct (get_soup_for_topic w (App.form_topic f) log)
      as [[[page actual]|e] log1] eqn:Hmain.
    + destruct (related_loop_returns w normalised (App.form_mode f)
                  (slice_to (App.form_limit f) (find_internal_links page))
                  [] log1 (Happ (App.form_mode f)))
        as (related & log2 & Hloop & Hall & _).
      cbn [app] in Hloop.
      rewrite (index_main_resolves lower w f log log1 log2 page actual
                 related Hmain Hloop).
      cbn [fst]. constructor; [|now apply Forall_filter_step].
      unfold App.main_article_of.
      destruct (App.wants_summaries (App.form_mode f)); [apply Hfull|].
      split; [exists []|exists []]; split; try reflexivity. constructor.
    + rewrite (index_main_fails lower w f log log1 e Hmain). exact I.
  - destruct (get_soup_for_topic w (Cli.topic a) log)
      as [[[page actual]|e] log1] eqn:Hmain.
    + destruct (results_loop_returns w normalised (Cli.mode a)
                  (slice_to (Cli.limit a) (find_internal_links page))
                  [] log1 (Hcli (Cli.mode a)))
        as (results & log2 & Hloop & Hall & _).
      cbn [app] in Hloop.
      rewrite (main_lookup_resolves lower w a log log1 log2 page actual
                 results Hmain Hloop).
      cbn [fst]. now apply Forall_filter_step.
    + rewrite (main_lookup_fails lower w a log log1 e Hmain). exact I.
Qed.

Lemma replace_char_absent (a b : char) (s : pystr) :
  a <> b -> ~ In a (replace_char a b s).
Proof.
  intros Hab. unfold replace_char. rewrite in_map_iff.
  intros (c & Hc & _). unfold char_eqb in Hc.
  destruct (c =? a) eqn:E; [congruence|].
  apply N.eqb_neq in E. congruence.
Qed.

Lemma resolved_title_has_no_space (topic : pystr) (log log' : list request)
  (page : soup) (actual : pystr) :
  get_soup_for_topic w topic log = (Returns (page, actual), log') ->
  ~ In SPACE actual.
Proof.
  rewrite get_soup_for_topic_paths. cbv zeta.
  destruct (fetch w (length log) _) as [resp|e]; [|discriminate].
  destruct (status_code resp =? 200)%Z.
  - intros [= _ <- _]. now apply replace_char_absent.
  - destruct (search w _ _) as [found|e]; [|discriminate].
    destruct (_ && _)%Z; [discriminate|].
    destruct (hit_titles found) as [|[|c matched] others];
      [discriminate|discriminate|].
    destruct (fetch w (S (S (length log))) _) as [resp2|e2]; [|discriminate].
    destruct (status_code resp2 =? 200)%Z; [|discriminate].
    intros [= _ <- _].
    exact (replace_char_absent SPACE UNDERSCORE (c :: matched)
             ltac:(discriminate)).
Qed.

Lemma find_internal_links_paths (doc : soup) :
  Forall (fun u => exists rest,
              u = py "https://en.wikipedia.org/wiki/" ++ rest
              /\ ~ In COLON rest)
    (find_internal_links doc).
Proof.
  rewrite find_internal_links_refines. unfold extractInternalLinks.
  induction doc as [|n doc IH]; cbn [flat_map]; [constructor|].
  apply Forall_app. split; [apply links_below_paths|exact IH].
Qed.

Lemma slice_to_In {A} (n : Z) (xs : list A) (x : A) :
  In x (slice_to n xs) -> In x xs.
Proof.
  destruct (slice_to_firstn n xs) as [k ->]. intros H.
  rewrite <- (firstn_skipn k xs). apply in_or_app. now left.
Qed.

(** Every item that the loop adds was built for one of the links. *)
Lemma collect_added_from_links (build : pystr -> pystr -> soup -> item)
  (links : list pystr) :
  forall acc log,
  exists added log',
    collect w build acc links log = (Returns (acc ++ added), log')
    /\ Forall (fun it => exists u page,
                  In u links
                  /\ it = build (rsplit1_last (py "/wiki/") u) u page)
         added.
Proof.
  induction links as [|u rest IH]; intros acc log.
  - exists [], log. cbn [collect]. unfold ret. rewrite app_nil_r.
    split; [reflexivity|constructor].
  - destruct (get_soup_for_topic w (rsplit1_last (py "/wiki/") u) log)
      as [[[page actual]|e] log1] eqn:Hget.
    + rewrite (collect_loaded _ _ _ _ _ _ _ _ _ Hget).
      destruct (IH (acc ++ [build (rsplit1_last (py "/wiki/") u) u page]) log1)
        as (added & log' & Hrun & Hall).
      exists (build (rsplit1_last (py "/wiki/") u) u page :: added), log'.
      rewrite Hrun, <- app_assoc. split; [reflexivity|].
      constructor.
      * exists u, page. split; [now left|reflexivity].
      * eapply Forall_impl; [exact Hall|]. cbn beta.
        intros it (u' & page' & Hin & ->). exists u', page'.
        split; [now right|reflexivity].
    + rewrite (collect_failed _ _ _ _ _ _ _ _ Hget).
      destruct (IH acc log1) as (added & log' & Hrun & Hall).
      exists added, log'. split; [exact Hrun|].
      eapply Forall_impl; [exact Hall|]. cbn beta.
      intros it (u' & page' & Hin & ->). exists u', page'.
      split; [now right|reflexivity].
Qed.

(** X19: the addresses and titles of a result. On the results page the
    typed topic and every title are shown without underscores, the main
    article is at the address built from a title without spaces, and
    every related article is at an article address without a colon; the
    command-line results are at such addresses too, each under the title
    that follows the last [/wiki/] of its address. *)
Theorem results_have_article_addresses (f : App.form) (a : Cli.args)
  (log : list request) :
  match fst (App.index lower w f log) with
  | Returns (App.results_html original main related _ _ _) =>
      ~ In UNDERSCORE original
      /\ (exists actual,
            ~ In SPACE actual
            /\ url main = Some (build_wiki_url actual)
            /\ title main = Some (replace_char UNDERSCORE SPACE actual))
      /\ Forall (fun it =>
                   (exists rest,
                       url it
                       = Some (py "https://en.wikipedia.org/wiki/" ++ rest)
                       /\ ~ In COLON rest)
                   /\ (exists t, title it = Some t /\ ~ In UNDERSCORE t))
           related
  | _ => True
  end
  /\ match fst (Cli.main lower w a log) with
     | Returns (Cli.sent _ actual results) =>
         ~ In SPACE actual
         /\ Forall (fun it =>
                      exists rest,
                        ~ In COLON rest
                        /\ url it
                           = Some (py "https://en.wikipedia.org/wiki/" ++ rest)
                        /\ title it
                           = Some (rsplit1_last (py "/wiki/")
                                     (py "https://en.wikipedia.org/wiki/"
                                      ++ rest)))
              results
     | _ => True
     end.
Proof.
  assert (Hlink : forall limit page u,
             In u (slice_to limit (find_internal_links page)) ->
             exists rest,
               u = py "https://en.wikipedia.org/wiki/" ++ rest
               /\ ~ In COLON rest).
  { intros limit page u Hin. apply slice_to_In in Hin.
    pose proof (find_internal_links_paths page) as Hall.
    rewrite List.Forall_forall in Hall. now apply Hall. }
  split.
  - destruct (get_soup_for_topic w (App.form_topic f) log)
      as [[[page actual]|e] log1] eqn:Hmain.
    + destruct (collect_added_from_links (App.related_item (App.form_mode f))
                  (slice_to (App.form_limit f) (find_internal_links page))
                  [] log1)
        as (related & log2 & Hloop & Hall).
      cbn [app] in Hloop. rewrite <- related_loop_collect in Hloop.
      rewrite (index_main_resolves lower w f log log1 log2 page actual
                 related Hmain Hloop).
      cbn [fst]. split; [apply replace_char_absent; discriminate|]. split.
      * exists actual.
        split; [exact (resolved_title_has_no_space _ _ _ _ _ Hmain)|].
        unfold App.main_article_of.
        destruct (App.wants_summaries (App.form_mode f)); split; reflexivity.
      * apply Forall_filter_step.
        eapply Forall_impl; [exact Hall|]. cbn beta.
        intros it (u & page' & Hin & ->).
        destruct (Hlink _ _ _ Hin) as (rest & -> & Hrest).
        rewrite related_item_url. split; [now exists rest|].
        eexists. split.
        -- unfold App.related_item.
           destruct (App.wants_summaries (App.form_mode f)); reflexivity.
        -- apply replace_char_absent. discriminate.
    + rewrite (index_main_fails lower w f log log1 e Hmain). exact I.
  - destruct (get_soup_for_topic w (Cli.topic a) log)
      as [[[page actual]|e] log1] eqn:Hmain.
    + destruct (collect_added_from_links (Cli.result_item (Cli.mode a))
                  (slice_to (Cli.limit a) (find_internal_links page))
                  [] log1)
        as (results & log2 & Hloop & Hall).
      cbn [app] in Hloop. rewrite <- results_loop_collect in Hloop.
      rewrite (main_lookup_resolves lower w a log log1 log2 page actual
                 results Hmain Hloop).
      cbn [fst].
      split; [exact (resolved_title_has_no_space _ _ _ _ _ Hmain)|].
      apply Forall_filter_step.
      eapply Forall_impl; [exact Hall|]. cbn beta.
      intros it (u & page' & Hin & ->).
      destruct (Hlink _ _ _ Hin) as (rest & -> & Hrest).
      exists rest. split; [exact Hrest|]. split; reflexivity.
    + rewrite (main_lookup_fails lower w a log log1 e Hmain). exact I.
Qed.

End Runs.

(** ** What cleaning keeps *)

Section CleanTextKeeps.
Import PyStr Summarizer CleanShape.

Lemma visible_sub_ws_runs (in_run : bool) (text : pystr) :
  visible (sub_ws_runs in_run text) = visible text.
Proof.
  unfold visible. revert in_run.
  induction text as [|c rest IH]; intros in_run; [reflexivity|].
  cbn [sub_ws_runs List.filter]. destruct (isspace c) eqn:Hc; cbn [negb].
  - destruct in_run; [apply IH|]. cbn [List.filter].
    rewrite space_isspace. apply IH.
  - cbn [List.filter]. rewrite Hc. cbn [negb]. now rewrite IH.
Qed.

Lemma visible_lstrip (s : pystr) : visible (lstrip s) = visible s.
Proof.
  unfold visible.
  induction s as [|c s IH]; [reflexivity|]. cbn [lstrip List.filter].
  destruct (isspace c) eqn:Hc; cbn [negb]; [exact IH|].
  cbn [List.filter]. now rewrite Hc.
Qed.

Lemma visible_rstrip (s : pystr) : visible (rstrip s) = visible s.
Proof.
  unfold visible.
  induction s as [|c s IH]; [reflexivity|]. cbn [rstrip List.filter].
  destruct (rstrip s) as [|d r] eqn:E.
  - rewrite <- IH. destruct (isspace c) eqn:Hc; cbn [negb List.filter];
      [reflexivity|]. now rewrite Hc.
  - cbn [List.filter]. destruct (isspace c); cbn [negb]; now rewrite <- IH.
Qed.

Lemma visible_sub_ws_before_punct (s : pystr) :
  forall run,
    visible run = [] ->
    visible (sub_ws_before_punct run s) = visible s.
Proof.
  unfold visible.
  induction s as [|c rest IH]; intros run Hrun; [exact Hrun|].
  cbn [sub_ws_before_punct List.filter].
  destruct (isspace c) eqn:Hc; cbn [negb].
  - apply IH. rewrite List.filter_app, Hrun. cbn [List.filter].
    now rewrite Hc.
  - destruct (ispunct c).
    + cbn [List.filter]. rewrite Hc. cbn [negb]. now rewrite IH.
    + rewrite List.filter_app, Hrun. cbn [app List.filter]. rewrite Hc.
      cbn [negb]. now rewrite IH.
Qed.

Lemma visible_clean_text (x : pystr) : visible (clean_text x) = visible x.
Proof.
  unfold clean_text, strip.
  rewrite visible_sub_ws_before_punct by reflexivity.
  now rewrite visible_rstrip, visible_lstrip, visible_sub_ws_runs.
Qed.

Lemma shaped_only_spaces (punct trailing : bool) (s : pystr) :
  forall p,
    shaped punct trailing p s = true ->
    Forall (fun c => isspace c = true -> c = SPACE) s.
Proof.
  induction s as [|c s IH]; intros p H; [constructor|].
  destruct (shaped_cons _ _ _ _ _ H) as [(Hc & -> & _ & Hr)|(Hc & _ & Hr)];
    (constructor; [|now apply (IH _ Hr)]).
  - reflexivity.
  - congruence.
Qed.

(** X20: cleaning touches whitespace only: the characters of the text
    that are not whitespace are all kept, in their order; the only
    whitespace left is the space character; and the result is trimmed. *)
Theorem clean_text_touches_whitespace_only (x : pystr) :
  visible (clean_text x) = visible x
  /\ Forall (fun c => isspace c = true -> c = SPACE) (clean_text x)
  /\ strip (clean_text x) = clean_text x.
Proof.
  pose proof (clean_text_neat x) as Hneat. unfold neat in Hneat.
  split; [apply visible_clean_text|].
  split; [exact (shaped_only_spaces _ _ _ _ Hneat)|].
  unfold strip.
  now rewrite (shaped_lstrip _ _ _ Hneat), (shaped_rstrip _ _ _ Hneat).
Qed.

(** X21: the cleaned text is empty exactly when the text is whitespace
    throughout. *)
Theorem clean_text_empty_iff (x : pystr) :
  clean_text x = [] <-> forallb isspace x = true.
Proof.
  assert (Hvis : forall s, visible s = [] <-> forallb isspace s = true).
  { unfold visible.
    induction s as [|c s IH]; [easy|]. cbn [List.filter forallb].
    destruct (isspace c); cbn [negb andb]; [exact IH|easy]. }
  rewrite <- Hvis, <- visible_clean_text. split; [now intros ->|].
  pose proof (clean_text_neat x) as Hneat. unfold neat in Hneat.
  destruct (clean_text x) as [|c r]; [reflexivity|].
  destruct (shaped_cons _ _ _ _ _ Hneat) as [(_ & _ & Hp & _)|(Hc & _ & _)];
    [discriminate|].
  unfold visible. cbn [List.filter]. rewrite Hc. discriminate.
Qed.

End CleanTextKeeps.

(** ** The properties above at concrete inputs *)

Lemma resolved_page_is_served_witness :
  ~ In PyStr.SPACE (PyStr.py "Dog")
  /\ exists before resp,
       [Scraper.GetPage (PyStr.py "https://en.wikipedia.org/wiki/Dog")]
       = before
         ++ [Scraper.GetPage (Scraper.build_wiki_url (PyStr.py "Dog"))]
       /\ Scraper.fetch Examples.all_served (length before)
            (Scraper.build_wiki_url (PyStr.py "Dog"))
          = Scraper.Returns resp
       /\ Scraper.status_code resp = 200%Z
       /\ Scraper.parsed resp = Examples.dog_page.
Proof.
  apply (resolved_page_is_served Examples.all_served (PyStr.py "Dog") []).
  vm_compute. reflexivity.
Defined.

Lemma fallback_returns_the_first_hit_witness :
  Scraper.get_soup_for_topic
    (Examples.misspelt (Examples.ok Examples.dog_page)) (PyStr.py "doog") []
  = (Scraper.Returns (Examples.dog_page, PyStr.py "Dog"),
     [ Scraper.GetPage (PyStr.py "https://en.wikipedia.org/wiki/doog");
       Scraper.GetSearch Scraper.API_URL (PyStr.py "doog");
       Scraper.GetPage (PyStr.py "https://en.wikipedia.org/wiki/Dog") ]).
Proof.
  destruct (fallback_returns_the_first_hit
              (Examples.misspelt (Examples.ok Examples.dog_page))
              (PyStr.py "doog") []
              {| Scraper.status_code := 404; Scraper.parsed := [] |}
              {| Scraper.search_status_code := 200;
                 Scraper.hit_titles := [PyStr.py "Dog"] |}
              (PyStr.py "Dog") []
              {| Scraper.status_code := 200;
                 Scraper.parsed := Examples.dog_page |}
              eq_refl ltac:(discriminate) eq_refl eq_refl eq_refl
              ltac:(discriminate) eq_refl eq_refl)
    as [Hrun _].
  exact Hrun.
Defined.

Lemma topics_with_one_sanitized_form_witness :
  snd (Scraper.get_soup_for_topic Examples.dead_links
         (PyStr.py "Climate change") [])
  = snd (Scraper.get_soup_for_topic Examples.dead_links
           (PyStr.py "Climate_change") []).
Proof.
  destruct (topics_with_one_sanitized_form Examples.dead_links
              (PyStr.py "Climate change") (PyStr.py "Climate_change") [])
    as [Hlog _]; [reflexivity|exact Hlog].
Defined.

Lemma subtopic_of_built_url_witness :
  PyStr.rsplit1_last (PyStr.py "/wiki/")
    (Scraper.build_wiki_url (PyStr.py "Domestication"))
  = PyStr.py "Domestication".
Proof. apply subtopic_of_built_url. reflexivity. Defined.

Lemma run_request_budget_witness :
  exists new,
    snd (App.index Examples.ascii_lower Examples.dead_links
           (Examples.dog_form "links" 1 "") [])
    = [] ++ new
    /\ (1 <= length new <= 3 * (Z.to_nat 1 + 1))%nat.
Proof.
  destruct (run_request_budget Examples.ascii_lower Examples.dead_links
              (PyStr.py "Dog") (PyStr.py "links") 1 (PyStr.py "") []
              (PyStr.py "console") [])
    as [Happ _]; [lia|exact Happ].
Defined.

Lemma filtered_without_keywords_is_summaries_witness :
  Cli.main Examples.ascii_lower Examples.all_served
    (Examples.dog_args "filtered" 2 []) []
  = Cli.main Examples.ascii_lower Examples.all_served
      (Examples.dog_args "summaries" 2 []) [].
Proof.
  destruct (filtered_without_keywords_is_summaries Examples.ascii_lower
              Examples.all_served (PyStr.py "Dog") 2 (PyStr.py "  ")
              (PyStr.py "console") [])
    as [_ Hcli]; [reflexivity|exact Hcli].
Defined.


